(** * nucleus/io/fasta.py: the in-memory reference reader

    A shallow embedding of [nucleus.io.fasta]: the [InMemoryRefReader]
    class (constructor, [query], [_lookup_chromosome], [is_valid],
    [contig], [iterate]) and the [iterate] method of [RefFastaReader].

    Conventions of the embedding
    - Python integers are [Z]; the fields [start] and [end] of a
      [ranges] region are signed, so a region may carry any [Z].
    - Python byte strings (contig names, bases) are [string].
    - The dictionary [self._chroms] is a [gmap string _InMemoryChromosome];
      the list [self.header.contigs] is a [list ContigInfo].
    - A method is a function from the receiver [self] to an outcome and
      the receiver after the call, so that a write to [self] would show.
    - [raise E(msg)] is an outcome [Raise (E msg)]; messages are kept as
      the format string of the raise site with its arguments.
    - A [range_pb2.Range] is a plain record.  A [reference_pb2.ContigInfo]
      is made by the constructor of the message, which refuses a field
      its declaration does not admit; the declaration is no part of
      [fasta.py], so the checks of the fields are taken as given
      ([reference_pb2.FieldChecks]).
    - [end] is a reserved word: the fields are spelled [end_]. *)

From Stdlib Require Import ZArith String Ascii List Lia.
From stdpp Require Import base option list gmap strings.

Local Open Scope Z_scope.

(** ** Values handed in and out *)

(** [nucleus.protos.range_pb2.Range], as built by [ranges.make_range]. *)
Module Range.
Record t := make_range {
  reference_name : string;
  start : Z;
  end_ : Z
}.
End Range.

(** The value of a [reference_pb2.ContigInfo] message: the fields the
    constructor call of [__init__] sets. *)
Module ContigInfo.
Record t := Build_t {
  name : string;
  n_bases : Z;
  pos_in_fasta : Z
}.
End ContigInfo.

(** [RefFastaHeader = namedtuple('RefFastaHeader', ['contigs'])]. *)
Record RefFastaHeader := Build_RefFastaHeader {
  contigs : list ContigInfo.t
}.

(** [_InMemoryChromosome = namedtuple(..., ['start', 'end', 'bases'])]. *)
Module _InMemoryChromosome.
Record t := Build_t {
  start : Z;
  end_ : Z;
  bases : string
}.
End _InMemoryChromosome.

(** ** Exceptions *)

(** The message of each raise site: its format string, with the values
    that fill it. *)
Inductive message :=
  | start_must_be_nonnegative (start : Z) (contig_name : string)
      (* 'start={} must be >= for chromosome={}' *)
  | Duplicate_chromosome (contig_name : string)
      (* 'Duplicate chromosome={} detect' *)
  | Bases_must_contain_at_least_one_base (bases : string)
      (* 'Bases must contain at least one base, but got "{}"' *)
  | Malformed_query_region (region : Range.t)
      (* 'Malformed query region={}' *)
  | Unknown_reference_name (region : Range.t)
      (* 'Unknown reference_name in {}' *)
  | Cannot_query_region (region : Range.t) (start end_ : Z) (chromosome : string)
      (* 'Cannot query region={} as this InMemoryRefReader only has bases
         from start={} to end={} on chromosome={}' *)
  | Unknown_contig (contig_name : string)
      (* 'Unknown contig', contig_name *)
  | ContigInfo_field_rejected (name : string) (n_bases pos_in_fasta : Z)
      (* raised inside ContigInfo(name=, n_bases=, pos_in_fasta=) by the
         message runtime: a value out of range, a name that is no text *)
  | Can_not_iterate_through_a_FASTA_file.
      (* 'Can not iterate through a FASTA file' *)

Inductive exn :=
  | ValueError (msg : message)
  | NotImplementedError (msg : message)
  | KeyError (key : string).

Inductive Result (A : Type) :=
  | Return (a : A)
  | Raise (e : exn).
Arguments Return {A} a.
Arguments Raise {A} e.

(** The error names of the design's taxonomy.  The source has fewer
    exception classes than the design has names: the argument, region,
    contig and bounds errors are all [ValueError], told apart by the
    raise site, that is by the message. *)
Inductive ErrorKind :=
  | InvalidArgumentError
  | InvalidRegionError
  | UnknownContigError
  | OutOfBoundsError
  | UnsupportedOperationError.

Definition error_kind (e : exn) : option ErrorKind :=
  match e with
  | ValueError (start_must_be_nonnegative _ _) => Some InvalidArgumentError
  | ValueError (Duplicate_chromosome _) => Some InvalidArgumentError
  | ValueError (Bases_must_contain_at_least_one_base _) =>
      Some InvalidArgumentError
  | ValueError (Malformed_query_region _) => Some InvalidRegionError
  | ValueError (Unknown_reference_name _) => Some UnknownContigError
  | ValueError (Cannot_query_region _ _ _ _) => Some OutOfBoundsError
  | ValueError (Unknown_contig _) => Some UnknownContigError
  | ValueError (ContigInfo_field_rejected _ _ _) => Some InvalidArgumentError
  | NotImplementedError _ => Some UnsupportedOperationError
  | _ => None
  end.

(** The outcome is an error of kind [k]. *)
Definition fails_with {A} (r : Result A) (k : ErrorKind) : Prop :=
  match r with
  | Raise e => error_kind e = Some k
  | Return _ => False
  end.

(** The outcome is a value. *)
Definition succeeds {A} (r : Result A) : Prop :=
  match r with
  | Return _ => True
  | Raise _ => False
  end.

(** ** Python slicing of a string, [s[a:b]] *)

(** How CPython places one slice bound on a sequence of length [n]:
    a negative bound counts from the end, and both are clipped. *)
Definition slice_index (n i : Z) : Z :=
  if i <? 0 then Z.max 0 (i + n) else Z.min i n.

Definition py_len (s : string) : Z := Z.of_nat (String.length s).

Definition py_slice (s : string) (a b : Z) : string :=
  let n := py_len s in
  let lo := slice_index n a in
  let hi := slice_index n b in
  if hi <=? lo then EmptyString
  else substring (Z.to_nat lo) (Z.to_nat (hi - lo)) s.

(** ** A method: receiver in, outcome and receiver out *)

Section Method.
Context {Self : Type}.

Definition Method (A : Type) : Type := Self -> Result A * Self.

Definition ret {A} (a : A) : Method A := fun self => (Return a, self).

Definition raise {A} (e : exn) : Method A := fun self => (Raise e, self).

Definition bind {A B} (m : Method A) (k : A -> Method B) : Method B :=
  fun self =>
    match m self with
    | (Return a, self') => k a self'
    | (Raise e, self') => (Raise e, self')
    end.

(** Read an attribute of [self]. *)
Definition attr {A} (f : Self -> A) : Method A :=
  fun self => (Return (f self), self).

(** [try: body; except ValueError: handler]. *)
Definition try_except_ValueError {A} (body handler : Method A) : Method A :=
  fun self =>
    match body self with
    | (Raise (ValueError _), self') => handler self'
    | other => other
    end.
End Method.
Arguments Method : clear implicits.

Notation "'do' x <- m ;; k" := (bind m (fun x => k))
  (at level 10, x name, m at level 99, k at level 200).
Notation "'do' ''' pat <- m ;; k" :=
  (bind m (fun x => match x with pat => k end))
  (at level 10, pat pattern, m at level 99, k at level 200).

(** ** reference_pb2.ContigInfo(name=, n_bases=, pos_in_fasta=) *)

Module reference_pb2.

(** What the message runtime admits for each field that [__init__] sets.
    The three checks are independent of each other. *)
Record FieldChecks := Build_FieldChecks {
  name_accepted : string -> bool;
  n_bases_accepted : Z -> bool;
  pos_in_fasta_accepted : Z -> bool
}.

Definition accepts (checks : FieldChecks)
    (name : string) (n_bases pos_in_fasta : Z) : bool :=
  name_accepted checks name
  && n_bases_accepted checks n_bases
  && pos_in_fasta_accepted checks pos_in_fasta.

(** The constructor call: the message, or the [ValueError] of the
    runtime. *)
Definition ContigInfo (checks : FieldChecks)
    (name : string) (n_bases pos_in_fasta : Z) : Result ContigInfo.t :=
  if accepts checks name n_bases pos_in_fasta then
    Return (ContigInfo.Build_t name n_bases pos_in_fasta)
  else
    Raise (ValueError (ContigInfo_field_rejected name n_bases pos_in_fasta)).

End reference_pb2.

(** ** class InMemoryRefReader *)

Module InMemoryRefReader.

(** The attributes of an instance. *)
Record t := Build_t {
  _chroms : gmap string _InMemoryChromosome.t;
  header : RefFastaHeader
}.

(** The loop of [__init__]: one turn per element of
    [enumerate(chromosomes)], on the dictionary [self._chroms] and the
    local list [contigs].  A raise leaves the loop and the constructor;
    the reader under construction is then lost. *)
Fixpoint init_loop (checks : reference_pb2.FieldChecks)
    (i : Z) (chromosomes : list (string * Z * string))
    (chroms : gmap string _InMemoryChromosome.t)
    (contigs : list ContigInfo.t)
    : Result (gmap string _InMemoryChromosome.t * list ContigInfo.t) :=
  match chromosomes with
  | [] => Return (chroms, contigs)
  | (contig_name, start, bases) :: rest =>
      if start <? 0 then
        Raise (ValueError (start_must_be_nonnegative start contig_name))
      else if bool_decide (is_Some (chroms !! contig_name)) then
        Raise (ValueError (Duplicate_chromosome contig_name))
      else if bool_decide (bases = EmptyString) then
        Raise (ValueError (Bases_must_contain_at_least_one_base bases))
      else
        let end_ := start + py_len bases in
        let chroms :=
          <[contig_name := _InMemoryChromosome.Build_t start end_ bases]>
            chroms in
        match reference_pb2.ContigInfo checks contig_name end_ i with
        | Raise e => Raise e
        | Return info =>
            init_loop checks (i + 1) rest chroms (contigs ++ [info])
        end
  end.

Definition __init__ (checks : reference_pb2.FieldChecks)
    (chromosomes : list (string * Z * string)) : Result t :=
  match init_loop checks 0 chromosomes ∅ [] with
  | Raise e => Raise e
  | Return (chroms, contigs) =>
      Return (Build_t chroms (Build_RefFastaHeader contigs))
  end.

(** [self._chroms[key]]. *)
Definition chroms_getitem (key : string)
    : Method t _InMemoryChromosome.t :=
  do chroms <- attr _chroms ;;
  match chroms !! key with
  | Some c => ret c
  | None => raise (KeyError key)
  end.

Definition _lookup_chromosome (region : Range.t)
    : Method t (Z * Z * string) :=
  if Range.start region >? Range.end_ region then
    raise (ValueError (Malformed_query_region region))
  else
    do chroms <- attr _chroms ;;
    if negb (bool_decide (is_Some (chroms !! Range.reference_name region)))
    then raise (ValueError (Unknown_reference_name region))
    else
      do ' (_InMemoryChromosome.Build_t start end_ bases) <-
        chroms_getitem (Range.reference_name region) ;;
      if (Range.start region <? start) || (Range.end_ region >? end_) then
        raise (ValueError (Cannot_query_region region start end_
                             (Range.reference_name region)))
      else ret (start, end_, bases).

Definition query (region : Range.t) : Method t string :=
  do ' (start, _, bases) <- _lookup_chromosome region ;;
  ret (py_slice bases (Range.start region - start)
                      (Range.end_ region - start)).

Definition iterate : Method t unit :=
  raise (NotImplementedError Can_not_iterate_through_a_FASTA_file).

Definition is_valid (region : Range.t) : Method t bool :=
  try_except_ValueError
    (do _x <- _lookup_chromosome region ;; ret true)
    (ret false).

(** The [for] loop of [contig], falling through to the [raise]. *)
Fixpoint contig_loop (contigs : list ContigInfo.t) (contig_name : string)
    : Method t ContigInfo.t :=
  match contigs with
  | [] => raise (ValueError (Unknown_contig contig_name))
  | contig :: rest =>
      if bool_decide (ContigInfo.name contig = contig_name) then ret contig
      else contig_loop rest contig_name
  end.

Definition contig (contig_name : string) : Method t ContigInfo.t :=
  do hdr <- attr header ;;
  contig_loop (contigs hdr) contig_name.

End InMemoryRefReader.

(** ** class RefFastaReader *)

Module RefFastaReader.
Section Reader.
(** The C++ reader [reference_fai.GenomeReferenceFai] behind the
    wrapper; its state is whatever [from_file] returned. *)
Variable GenomeReferenceFai : Type.

Record t := Build_t {
  _reader : GenomeReferenceFai;
  header : RefFastaHeader
}.

Definition iterate : Method t unit :=
  raise (NotImplementedError Can_not_iterate_through_a_FASTA_file).
End Reader.
End RefFastaReader.

(** ** Vocabulary of the statements *)

(** The outcome of calling a method on [self]. *)
Definition outcome {Self A} (m : Method Self A) (self : Self) : Result A :=
  fst (m self).

(** The contig names of a constructor argument, in input order. *)
Abbreviation names chromosomes :=
  (map (λ e : string * Z * string, e.1.1) chromosomes).

(** A region whose ends lie within the window held for a chromosome. *)
Definition inside (region : Range.t) (c : _InMemoryChromosome.t) : Prop :=
  _InMemoryChromosome.start c <= Range.start region
  ∧ Range.end_ region <= _InMemoryChromosome.end_ c.

(** Well-formed UTF-8, read byte by byte: how many continuation bytes
    are still due, and the range the next one must lie in. *)
Definition utf8_step (state : option (nat * Z * Z)) (c : ascii)
    : option (nat * Z * Z) :=
  let b := Z.of_N (N_of_ascii c) in
  match state with
  | None => None
  | Some (O, _, _) =>
      if b <? 128 then Some (0%nat, 128, 191)
      else if (194 <=? b) && (b <=? 223) then Some (1%nat, 128, 191)
      else if b =? 224 then Some (2%nat, 160, 191)
      else if b =? 237 then Some (2%nat, 128, 159)
      else if (225 <=? b) && (b <=? 239) then Some (2%nat, 128, 191)
      else if b =? 240 then Some (3%nat, 144, 191)
      else if (241 <=? b) && (b <=? 243) then Some (3%nat, 128, 191)
      else if b =? 244 then Some (3%nat, 128, 143)
      else None
  | Some (S due, lo, hi) =>
      if (lo <=? b) && (b <=? hi) then Some (due, 128, 191) else None
  end.

Definition valid_utf8 (s : string) : bool :=
  match fold_left utf8_step (list_ascii_of_string s)
          (Some (0%nat, 128, 191)) with
  | Some (O, _, _) => true
  | _ => false
  end.

(** An instance of the field checks: those the Python runtime of
    protocol buffers applies to a [string], an [int64] and an [int32]
    field, which is how [reference.proto] declares [name], [n_bases] and
    [pos_in_fasta].  The declaration is no part of [fasta.py]; the
    general statements below hold for every [FieldChecks]. *)
Definition string_int64_int32 : reference_pb2.FieldChecks :=
  reference_pb2.Build_FieldChecks
    valid_utf8
    (λ v, (- 2 ^ 63 <=? v) && (v <? 2 ^ 63))
    (λ v, (- 2 ^ 31 <=? v) && (v <? 2 ^ 31)).

(** The store of the docstring of [InMemoryRefReader]: ('1', 10, 'ACGT'). *)
Definition docstring_chromosomes : list (string * Z * string) :=
  [("1"%string, 10, "ACGT"%string)].

Definition docstring_chromosome : _InMemoryChromosome.t :=
  _InMemoryChromosome.Build_t 10 14 "ACGT".

Definition docstring_reader : InMemoryRefReader.t :=
  InMemoryRefReader.Build_t
    {[ "1"%string := docstring_chromosome ]}
    (Build_RefFastaHeader [ContigInfo.Build_t "1" 14 0]).

(** * Properties *)

Import InMemoryRefReader.

(** ** Strings and slices *)

Lemma substring_nothing (s : string) (n : nat) :
  substring n 0 s = EmptyString.
Proof.
  revert n; induction s as [|c s IH]; intros [|n]; simpl; auto.
Qed.

Lemma length_substring (s : string) (n m : nat) :
  (n + m <= String.length s)%nat ->
  String.length (substring n m s) = m.
Proof.
  revert n m; induction s as [|c s IH]; intros n m Hle; simpl in *.
  - destruct n, m; simpl in *; lia.
  - destruct n as [|n].
    + destruct m as [|m]; simpl; [reflexivity|].
      f_equal. apply (IH 0%nat m). simpl in Hle. lia.
    + apply IH. simpl in Hle. lia.
Qed.

Lemma substring_split (s : string) (n m k : nat) :
  String.append (substring n m s) (substring (n + m) k s)
  = substring n (m + k) s.
Proof.
  revert n m; induction s as [|c s IH]; intros n m.
  - destruct n, m, k; reflexivity.
  - destruct n as [|n].
    + destruct m as [|m].
      * reflexivity.
      * change (String c (String.append (substring 0 m s)
                                          (substring (0 + m) k s))
                = String c (substring 0 (m + k) s)).
        f_equal. apply IH.
    + simpl. apply IH.
Qed.

(** Between the ends of the string a slice is the plain substring. *)
Lemma py_slice_inside (s : string) (a b : Z) :
  0 <= a -> a <= b -> b <= py_len s ->
  py_slice s a b = substring (Z.to_nat a) (Z.to_nat (b - a)) s.
Proof.
  intros Ha Hab Hb. unfold py_slice, slice_index.
  destruct (Z.ltb_spec a 0); [lia|].
  destruct (Z.ltb_spec b 0); [lia|].
  rewrite !Z.min_l by lia.
  destruct (Z.leb_spec b a); [|reflexivity].
  replace (b - a) with 0 by lia. simpl.
  symmetry. apply substring_nothing.
Qed.

Example py_slice_middle : py_slice "ACGT" 1 3 = "CG"%string.
Proof. reflexivity. Qed.

Example py_slice_from_the_end : py_slice "ACGT" (-3) (-1) = "CG"%string.
Proof. reflexivity. Qed.

Example py_slice_clipped : py_slice "ACGT" 2 9 = "GT"%string.
Proof. reflexivity. Qed.

Example py_slice_crossed : py_slice "ACGT" 3 1 = ""%string.
Proof. reflexivity. Qed.

Example valid_utf8_ascii : valid_utf8 "chr1" = true.
Proof. reflexivity. Qed.

Example valid_utf8_two_bytes :
  valid_utf8 (String (ascii_of_nat 195) (String (ascii_of_nat 169) ""))
  = true.
Proof. reflexivity. Qed.

Example valid_utf8_stray_byte :
  valid_utf8 (String (ascii_of_nat 255) "") = false.
Proof. reflexivity. Qed.

Example valid_utf8_cut_short :
  valid_utf8 (String (ascii_of_nat 195) "") = false.
Proof. reflexivity. Qed.

Example int64_extent_limit :
  reference_pb2.accepts string_int64_int32 "1" (2 ^ 63 - 1) 0 = true
  ∧ reference_pb2.accepts string_int64_int32 "1" (2 ^ 63) 0 = false.
Proof. split; reflexivity. Qed.

(** ** What [_lookup_chromosome] computes *)

Lemma lookup_chromosome_unfold (self : t) (region : Range.t) :
  _lookup_chromosome region self =
  (if Range.start region >? Range.end_ region then
     Raise (ValueError (Malformed_query_region region))
   else
     match _chroms self !! Range.reference_name region with
     | None => Raise (ValueError (Unknown_reference_name region))
     | Some c =>
         if (Range.start region <? _InMemoryChromosome.start c)
            || (Range.end_ region >? _InMemoryChromosome.end_ c)
         then Raise (ValueError (Cannot_query_region region
                       (_InMemoryChromosome.start c)
                       (_InMemoryChromosome.end_ c)
                       (Range.reference_name region)))
         else Return (_InMemoryChromosome.start c,
                      _InMemoryChromosome.end_ c,
                      _InMemoryChromosome.bases c)
     end, self).
Proof.
  unfold _lookup_chromosome.
  destruct (Range.start region >? Range.end_ region); [reflexivity|].
  unfold chroms_getitem, bind, attr, raise, ret.
  destruct (_chroms self !! Range.reference_name region) as [[s e b]|] eqn:E.
  - rewrite bool_decide_eq_true_2 by eauto.
    cbn [negb _InMemoryChromosome.start _InMemoryChromosome.end_
         _InMemoryChromosome.bases].
    rewrite E.
    destruct ((Range.start region <? s) || (Range.end_ region >? e));
      reflexivity.
  - rewrite bool_decide_eq_false_2 by (intros [? ?]; discriminate).
    reflexivity.
Qed.

Lemma query_unfold (self : t) (region : Range.t) :
  query region self =
  (match fst (_lookup_chromosome region self) with
   | Return (start, _, bases) =>
       Return (py_slice bases (Range.start region - start)
                              (Range.end_ region - start))
   | Raise e => Raise e
   end, self).
Proof.
  unfold query, bind. rewrite lookup_chromosome_unfold. simpl.
  destruct (Range.start region >? Range.end_ region); [reflexivity|].
  destruct (_chroms self !! Range.reference_name region) as [c|];
    [|reflexivity].
  destruct ((Range.start region <? _InMemoryChromosome.start c)
            || (Range.end_ region >? _InMemoryChromosome.end_ c));
    reflexivity.
Qed.

Lemma is_valid_unfold (self : t) (region : Range.t) :
  is_valid region self =
  (Return match fst (_lookup_chromosome region self) with
          | Return _ => true
          | Raise _ => false
          end, self).
Proof.
  unfold is_valid, try_except_ValueError, bind.
  rewrite lookup_chromosome_unfold. simpl.
  destruct (Range.start region >? Range.end_ region); [reflexivity|].
  destruct (_chroms self !! Range.reference_name region) as [c|];
    [|reflexivity].
  destruct ((Range.start region <? _InMemoryChromosome.start c)
            || (Range.end_ region >? _InMemoryChromosome.end_ c));
    reflexivity.
Qed.

(** ** What the loop of [__init__] builds *)

Lemma ContigInfo_Return (fc : reference_pb2.FieldChecks)
    (n : string) (e p : Z) (info : ContigInfo.t) :
  reference_pb2.ContigInfo fc n e p = Return info →
  reference_pb2.accepts fc n e p = true ∧ info = ContigInfo.Build_t n e p.
Proof.
  unfold reference_pb2.ContigInfo.
  destruct (reference_pb2.accepts fc n e p); [|discriminate].
  intros [= <-]. split; reflexivity.
Qed.

Lemma ContigInfo_succeeds (fc : reference_pb2.FieldChecks) (n : string)
    (e p : Z) :
  succeeds (reference_pb2.ContigInfo fc n e p)
  ↔ reference_pb2.accepts fc n e p = true.
Proof.
  unfold reference_pb2.ContigInfo.
  destruct (reference_pb2.accepts fc n e p); simpl.
  - split; auto.
  - split; [intros []|discriminate].
Qed.

Lemma init_loop_Return_inv {fc : reference_pb2.FieldChecks}
    (chromosomes : list (string * Z * string)) :
  ∀ i chroms contigs chroms' contigs',
  init_loop fc i chromosomes chroms contigs = Return (chroms', contigs') →
  Forall (λ e, 0 <= e.1.2 ∧ e.2 ≠ EmptyString) chromosomes
  ∧ NoDup (names chromosomes)
  ∧ (∀ n, n ∈ names chromosomes → chroms !! n = None)
  ∧ (∀ n, n ∉ names chromosomes → chroms' !! n = chroms !! n)
  ∧ (∀ n s b, (n, s, b) ∈ chromosomes →
       chroms' !! n = Some (_InMemoryChromosome.Build_t s (s + py_len b) b))
  ∧ contigs' =
      contigs ++ imap (λ k e, ContigInfo.Build_t e.1.1 (e.1.2 + py_len e.2)
                                (i + Z.of_nat k)) chromosomes.
Proof.
  induction chromosomes as [|[[n0 s0] b0] rest IH];
    intros i chroms contigs chroms' contigs' Hrun; simpl in Hrun.
  - injection Hrun as <- <-. simpl. rewrite app_nil_r.
    repeat split; auto using NoDup_nil_2.
    + intros n Hn. inversion Hn.
    + intros n s b Hin. inversion Hin.
  - destruct (Z.ltb_spec s0 0) as [|Hs0]; [discriminate|].
    case_bool_decide as Hdup; [discriminate|].
    case_bool_decide as Hb0; [discriminate|].
    destruct (reference_pb2.ContigInfo fc n0 (s0 + py_len b0) i)
      as [info|err] eqn:Hinfo; [|discriminate].
    apply ContigInfo_Return in Hinfo as [_ ->].
    apply IH in Hrun as (Hok & Hnd & Hfresh & Hkeep & Hget & Hcontigs).
    assert (Hn0 : n0 ∉ names rest).
    { intros Hin. apply Hfresh in Hin. rewrite lookup_insert_eq in Hin.
      discriminate. }
    assert (Hnone : chroms !! n0 = None).
    { destruct (chroms !! n0) eqn:E; [|reflexivity].
      exfalso. apply Hdup. eauto. }
    split; [|split; [|split; [|split; [|split]]]].
    + constructor; [split; simpl; auto|exact Hok].
    + simpl. constructor; assumption.
    + simpl. intros n [->|Hin]%elem_of_cons; [exact Hnone|].
      specialize (Hfresh n Hin).
      destruct (decide (n0 = n)) as [->|Hne].
      * rewrite lookup_insert_eq in Hfresh. discriminate.
      * rewrite lookup_insert_ne in Hfresh by exact Hne. exact Hfresh.
    + simpl. intros n Hnot. apply not_elem_of_cons in Hnot as [Hne Hnot].
      rewrite Hkeep by exact Hnot. apply lookup_insert_ne. congruence.
    + intros n s b [Heq|Hin]%elem_of_cons.
      * injection Heq as -> -> ->.
        rewrite Hkeep by exact Hn0. apply lookup_insert_eq.
      * apply Hget. exact Hin.
    + rewrite Hcontigs, <- app_assoc. simpl. f_equal. f_equal.
      * f_equal. lia.
      * apply imap_ext. intros k e _. simpl. f_equal. lia.
Qed.

(** When the loop returns, every constructor call it made was admitted. *)
Lemma init_loop_Return_accepted {fc : reference_pb2.FieldChecks}
    (chromosomes : list (string * Z * string)) :
  ∀ i chroms contigs built,
  init_loop fc i chromosomes chroms contigs = Return built →
  ∀ (k : nat) n s b,
    chromosomes !! k = Some (n, s, b) →
    reference_pb2.accepts fc n (s + py_len b) (i + Z.of_nat k) = true.
Proof.
  induction chromosomes as [|[[n0 s0] b0] rest IH];
    intros i chroms contigs built Hrun k n s b Hk; [discriminate|].
  simpl in Hrun.
  destruct (s0 <? 0); [discriminate|].
  case_bool_decide; [discriminate|]. case_bool_decide; [discriminate|].
  destruct (reference_pb2.ContigInfo fc n0 (s0 + py_len b0) i)
    as [info|err] eqn:Hinfo; [|discriminate].
  apply ContigInfo_Return in Hinfo as [Hacc _].
  destruct k as [|k]; simpl in Hk.
  - injection Hk as <- <- <-. rewrite Z.add_0_r. exact Hacc.
  - replace (i + Z.of_nat (S k)) with (i + 1 + Z.of_nat k) by lia.
    eapply IH; eassumption.
Qed.

Lemma init_loop_Return_intro {fc : reference_pb2.FieldChecks}
    (chromosomes : list (string * Z * string)) :
  ∀ i chroms contigs,
  Forall (λ e, 0 <= e.1.2 ∧ e.2 ≠ EmptyString) chromosomes →
  NoDup (names chromosomes) →
  (∀ n, n ∈ names chromosomes → chroms !! n = None) →
  (∀ (k : nat) n s b,
     chromosomes !! k = Some (n, s, b) →
     reference_pb2.accepts fc n (s + py_len b) (i + Z.of_nat k) = true) →
  ∃ built, init_loop fc i chromosomes chroms contigs = Return built.
Proof.
  induction chromosomes as [|[[n0 s0] b0] rest IH];
    intros i chroms contigs Hok Hnd Hfresh Hacc; simpl.
  - eauto.
  - apply Forall_cons in Hok as [[Hs0 Hb0] Hok]. simpl in Hs0, Hb0.
    simpl in Hnd. apply NoDup_cons in Hnd as [Hn0 Hnd].
    destruct (Z.ltb_spec s0 0); [lia|].
    rewrite bool_decide_eq_false_2.
    2:{ rewrite (Hfresh n0) by (simpl; left). intros [? ?]. discriminate. }
    rewrite bool_decide_eq_false_2 by exact Hb0.
    unfold reference_pb2.ContigInfo.
    pose proof (Hacc 0%nat n0 s0 b0 eq_refl) as Hhead.
    rewrite Z.add_0_r in Hhead. rewrite Hhead.
    apply IH; try assumption.
    + intros n Hin. rewrite lookup_insert_ne.
      * apply Hfresh. simpl. right. exact Hin.
      * intros ->. contradiction.
    + intros k n s b Hk.
      replace (i + 1 + Z.of_nat k) with (i + Z.of_nat (S k)) by lia.
      apply Hacc. exact Hk.
Qed.

(** Every raise site of the loop is an argument check, of the loop
    itself or of the constructor of the message. *)
Lemma init_loop_Raise_kind {fc : reference_pb2.FieldChecks}
    (chromosomes : list (string * Z * string)) :
  ∀ i chroms contigs e,
  init_loop fc i chromosomes chroms contigs = Raise e →
  error_kind e = Some InvalidArgumentError.
Proof.
  induction chromosomes as [|[[n0 s0] b0] rest IH];
    intros i chroms contigs e Hrun; simpl in Hrun.
  - discriminate.
  - destruct (s0 <? 0); [injection Hrun as <-; reflexivity|].
    case_bool_decide; [injection Hrun as <-; reflexivity|].
    case_bool_decide; [injection Hrun as <-; reflexivity|].
    unfold reference_pb2.ContigInfo in Hrun.
    destruct (reference_pb2.accepts fc n0 (s0 + py_len b0) i);
      [|injection Hrun as <-; reflexivity].
    eapply IH. exact Hrun.
Qed.

(** ** A constructed reader *)

Lemma init_Return_inv {fc : reference_pb2.FieldChecks}
    (chromosomes : list (string * Z * string)) (self : t) :
  __init__ fc chromosomes = Return self →
  Forall (λ e, 0 <= e.1.2 ∧ e.2 ≠ EmptyString) chromosomes
  ∧ NoDup (names chromosomes)
  ∧ (∀ n, n ∉ names chromosomes → _chroms self !! n = None)
  ∧ (∀ n s b, (n, s, b) ∈ chromosomes →
       _chroms self !! n
       = Some (_InMemoryChromosome.Build_t s (s + py_len b) b))
  ∧ contigs (header self) =
      imap (λ k e, ContigInfo.Build_t e.1.1 (e.1.2 + py_len e.2) (Z.of_nat k))
           chromosomes.
Proof.
  unfold __init__. intros Hinit.
  destruct (init_loop fc 0 chromosomes ∅ []) as [[chroms' contigs']|e] eqn:Hrun;
    [|discriminate].
  injection Hinit as <-. simpl.
  apply init_loop_Return_inv in Hrun as (Hok & Hnd & _ & Hkeep & Hget & ->).
  split; [exact Hok|]. split; [exact Hnd|]. split; [|split].
  - intros n Hn. rewrite Hkeep by exact Hn. apply lookup_empty.
  - exact Hget.
  - simpl. apply imap_ext. intros k e _. reflexivity.
Qed.

Lemma init_Return_accepted {fc : reference_pb2.FieldChecks}
    (chromosomes : list (string * Z * string)) (self : t) :
  __init__ fc chromosomes = Return self →
  ∀ (k : nat) n s b,
    chromosomes !! k = Some (n, s, b) →
    reference_pb2.accepts fc n (s + py_len b) (Z.of_nat k) = true.
Proof.
  unfold __init__. intros Hinit k n s b Hk.
  destruct (init_loop fc 0 chromosomes ∅ []) as [built|e] eqn:Hrun;
    [|discriminate].
  apply (init_loop_Return_accepted _ _ _ _ _ Hrun k n s b Hk).
Qed.

Lemma init_Return_intro {fc : reference_pb2.FieldChecks}
    (chromosomes : list (string * Z * string)) :
  Forall (λ e, 0 <= e.1.2 ∧ e.2 ≠ EmptyString) chromosomes →
  NoDup (names chromosomes) →
  (∀ (k : nat) n s b,
     chromosomes !! k = Some (n, s, b) →
     reference_pb2.accepts fc n (s + py_len b) (Z.of_nat k) = true) →
  ∃ self, __init__ fc chromosomes = Return self.
Proof.
  intros Hok Hnd Hacc.
  destruct (init_loop_Return_intro (fc := fc) chromosomes 0 ∅ [] Hok Hnd)
    as [[chroms' contigs'] Hrun].
  - intros n _. apply lookup_empty.
  - intros k n s b Hk. apply (Hacc k n s b Hk).
  - unfold __init__. rewrite Hrun. eauto.
Qed.

(** Each held window starts at or after 0, is not empty, and ends
    [len(bases)] after its start. *)
Lemma init_windows {fc : reference_pb2.FieldChecks}
    (chromosomes : list (string * Z * string)) (self : t)
    (n : string) (c : _InMemoryChromosome.t) :
  __init__ fc chromosomes = Return self →
  _chroms self !! n = Some c →
  0 <= _InMemoryChromosome.start c
  ∧ _InMemoryChromosome.end_ c
    = _InMemoryChromosome.start c + py_len (_InMemoryChromosome.bases c)
  ∧ _InMemoryChromosome.bases c ≠ EmptyString.
Proof.
  intros (Hok & _ & Hnone & Hget & _)%init_Return_inv Hc.
  destruct (decide (n ∈ names chromosomes)) as [Hin|Hnot].
  - apply list_elem_of_fmap in Hin as ([[n' s] b] & -> & Hin). simpl in Hc.
    rewrite (Hget _ _ _ Hin) in Hc. injection Hc as <-. simpl.
    rewrite Forall_forall in Hok. destruct (Hok _ Hin) as [Hs Hb].
    auto.
  - rewrite (Hnone _ Hnot) in Hc. discriminate.
Qed.

(** ** The search of [contig] *)

Lemma contig_loop_found (self : t) (l : list ContigInfo.t) :
  ∀ (i : nat) (c : ContigInfo.t),
  NoDup (map ContigInfo.name l) →
  l !! i = Some c →
  contig_loop l (ContigInfo.name c) self = (Return c, self).
Proof.
  induction l as [|c0 l IH]; intros i c Hnd Hi; [discriminate|].
  simpl in Hnd. apply NoDup_cons in Hnd as [Hc0 Hnd]. simpl.
  destruct i as [|i]; simpl in Hi.
  - injection Hi as ->. rewrite bool_decide_eq_true_2 by reflexivity.
    reflexivity.
  - rewrite bool_decide_eq_false_2.
    + eapply IH; eassumption.
    + intros Heq. apply Hc0. rewrite Heq.
      apply list_elem_of_fmap. exists c. split; [reflexivity|].
      eapply list_elem_of_lookup_2. exact Hi.
Qed.

Lemma contig_loop_missing (self : t) (l : list ContigInfo.t) (n : string) :
  n ∉ map ContigInfo.name l →
  contig_loop l n self = (Raise (ValueError (Unknown_contig n)), self).
Proof.
  induction l as [|c0 l IH]; intros Hn; simpl; [reflexivity|].
  simpl in Hn. apply not_elem_of_cons in Hn as [Hne Hn].
  rewrite bool_decide_eq_false_2 by congruence. apply IH. exact Hn.
Qed.

Lemma init_contig_names {fc : reference_pb2.FieldChecks}
    (chromosomes : list (string * Z * string)) (self : t) :
  __init__ fc chromosomes = Return self →
  map ContigInfo.name (contigs (header self)) = names chromosomes.
Proof.
  intros (_ & _ & _ & _ & ->)%init_Return_inv.
  assert (∀ (l : list (string * Z * string)) (f : nat → nat),
    map ContigInfo.name
      (imap (λ k e, ContigInfo.Build_t e.1.1 (e.1.2 + py_len e.2)
                      (Z.of_nat (f k))) l) = names l) as Hgen.
  { induction l as [|e l IH]; intros f; simpl; [reflexivity|].
    f_equal. apply (IH (f ∘ S)). }
  apply (Hgen chromosomes (λ k, k)).
Qed.

(** ** The outcomes of [query], one per branch of [_lookup_chromosome] *)

Lemma query_malformed (self : t) (region : Range.t) :
  Range.start region > Range.end_ region →
  query region self = (Raise (ValueError (Malformed_query_region region)), self).
Proof.
  intros Hgt. rewrite query_unfold, lookup_chromosome_unfold. simpl.
  destruct (Z.gtb_spec (Range.start region) (Range.end_ region)); [|lia].
  reflexivity.
Qed.

Lemma query_unknown (self : t) (region : Range.t) :
  Range.start region <= Range.end_ region →
  _chroms self !! Range.reference_name region = None →
  query region self = (Raise (ValueError (Unknown_reference_name region)), self).
Proof.
  intros Hle Hnone. rewrite query_unfold, lookup_chromosome_unfold. simpl.
  destruct (Z.gtb_spec (Range.start region) (Range.end_ region)); [lia|].
  rewrite Hnone. reflexivity.
Qed.

Lemma query_outside (self : t) (region : Range.t) (c : _InMemoryChromosome.t) :
  Range.start region <= Range.end_ region →
  _chroms self !! Range.reference_name region = Some c →
  ¬ inside region c →
  query region self =
  (Raise (ValueError (Cannot_query_region region
            (_InMemoryChromosome.start c) (_InMemoryChromosome.end_ c)
            (Range.reference_name region))), self).
Proof.
  intros Hle Hc Hout. rewrite query_unfold, lookup_chromosome_unfold. simpl.
  destruct (Z.gtb_spec (Range.start region) (Range.end_ region)); [lia|].
  rewrite Hc. unfold inside in Hout.
  destruct (Z.ltb_spec (Range.start region) (_InMemoryChromosome.start c));
    [reflexivity|].
  destruct (Z.gtb_spec (Range.end_ region) (_InMemoryChromosome.end_ c));
    [reflexivity|].
  exfalso. apply Hout. lia.
Qed.

Lemma query_inside (self : t) (region : Range.t) (c : _InMemoryChromosome.t) :
  Range.start region <= Range.end_ region →
  _chroms self !! Range.reference_name region = Some c →
  inside region c →
  query region self =
  (Return (py_slice (_InMemoryChromosome.bases c)
             (Range.start region - _InMemoryChromosome.start c)
             (Range.end_ region - _InMemoryChromosome.start c)), self).
Proof.
  intros Hle Hc [Hs He]. rewrite query_unfold, lookup_chromosome_unfold. simpl.
  destruct (Z.gtb_spec (Range.start region) (Range.end_ region)); [lia|].
  rewrite Hc.
  destruct (Z.ltb_spec (Range.start region) (_InMemoryChromosome.start c));
    [lia|].
  destruct (Z.gtb_spec (Range.end_ region) (_InMemoryChromosome.end_ c));
    [lia|].
  reflexivity.
Qed.

(** ** Properties of the reader *)

(** C1. On a reader made by [__init__], a region with [start <= end] whose
    ends lie within the window held for its contig is answered by [query]
    with exactly [end - start] bases. *)
Theorem query_length {fc : reference_pb2.FieldChecks}
    (chromosomes : list (string * Z * string)) (self : t)
    (region : Range.t) (c : _InMemoryChromosome.t) :
  __init__ fc chromosomes = Return self →
  Range.start region <= Range.end_ region →
  _chroms self !! Range.reference_name region = Some c →
  inside region c →
  ∃ bases, query region self = (Return bases, self)
           ∧ py_len bases = Range.end_ region - Range.start region.
Proof.
  intros Hinit Hle Hc Hin.
  destruct (init_windows _ _ _ _ Hinit Hc) as (Hs & He & _).
  destruct Hin as [Hlo Hhi].
  eexists. split; [apply query_inside; [exact Hle|exact Hc|split; assumption]|].
  rewrite py_slice_inside by lia.
  unfold py_len in *. rewrite length_substring by lia. lia.
Qed.

Lemma query_length_witness :
  ∃ bases, query (Range.make_range "1" 11 13) docstring_reader
           = (Return bases, docstring_reader)
           ∧ py_len bases = 13 - 11.
Proof.
  apply (query_length (fc := string_int64_int32)
           docstring_chromosomes docstring_reader
           (Range.make_range "1" 11 13) docstring_chromosome).
  - reflexivity.
  - simpl. lia.
  - reflexivity.
  - unfold inside. simpl. lia.
Defined.

(** C2. The checks of [query] in the order of the source.  A region with
    [start > end] is refused as malformed (InvalidRegionError); otherwise
    a reference name that is no key of the store is refused as unknown
    (UnknownContigError); otherwise a region with an end outside the
    window held for that contig is refused (OutOfBoundsError); otherwise
    [query] returns.  So [query({"chrZ", 0, 1})] is refused as unknown by
    a store not holding "chrZ", and [query({"1", 5, 3})] is refused as
    malformed by every store.  The store is left as it was. *)
Theorem query_outcomes (self : t) (region : Range.t) :
  (Range.start region > Range.end_ region →
     fails_with (outcome (query region) self) InvalidRegionError)
  ∧ (Range.start region <= Range.end_ region →
     _chroms self !! Range.reference_name region = None →
     fails_with (outcome (query region) self) UnknownContigError)
  ∧ (∀ c, Range.start region <= Range.end_ region →
     _chroms self !! Range.reference_name region = Some c →
     (Range.start region < _InMemoryChromosome.start c
      ∨ _InMemoryChromosome.end_ c < Range.end_ region) →
     fails_with (outcome (query region) self) OutOfBoundsError)
  ∧ (∀ c, Range.start region <= Range.end_ region →
     _chroms self !! Range.reference_name region = Some c →
     inside region c →
     succeeds (outcome (query region) self))
  ∧ (_chroms self !! "chrZ"%string = None →
     fails_with (outcome (query (Range.make_range "chrZ" 0 1)) self)
       UnknownContigError)
  ∧ fails_with (outcome (query (Range.make_range "1" 5 3)) self)
      InvalidRegionError.
Proof.
  unfold outcome. split; [|split; [|split; [|split; [|split]]]].
  - intros H. rewrite query_malformed by exact H. reflexivity.
  - intros H1 H2. rewrite query_unknown by assumption. reflexivity.
  - intros c H1 H2 H3. rewrite (query_outside _ _ c); [reflexivity|auto..].
    unfold inside. lia.
  - intros c H1 H2 H3. rewrite (query_inside _ _ c) by assumption. exact I.
  - intros H. rewrite query_unknown; [reflexivity|simpl; lia|exact H].
  - rewrite query_malformed by (simpl; lia). reflexivity.
Qed.

Lemma query_outcomes_witness :
  fails_with (outcome (query (Range.make_range "1" 12 11)) docstring_reader)
    InvalidRegionError
  ∧ fails_with (outcome (query (Range.make_range "2" 11 12)) docstring_reader)
      UnknownContigError
  ∧ fails_with (outcome (query (Range.make_range "1" 12 15)) docstring_reader)
      OutOfBoundsError
  ∧ succeeds (outcome (query (Range.make_range "1" 11 12)) docstring_reader)
  ∧ fails_with (outcome (query (Range.make_range "chrZ" 0 1)) docstring_reader)
      UnknownContigError.
Proof.
  split; [|split; [|split; [|split]]].
  - destruct (query_outcomes docstring_reader (Range.make_range "1" 12 11))
      as (H & _).
    apply H. simpl. lia.
  - destruct (query_outcomes docstring_reader (Range.make_range "2" 11 12))
      as (_ & H & _).
    apply H; [simpl; lia|reflexivity].
  - destruct (query_outcomes docstring_reader (Range.make_range "1" 12 15))
      as (_ & _ & H & _).
    apply (H docstring_chromosome); [simpl; lia|reflexivity|simpl; lia].
  - destruct (query_outcomes docstring_reader (Range.make_range "1" 11 12))
      as (_ & _ & _ & H & _).
    apply (H docstring_chromosome);
      [simpl; lia|reflexivity|unfold inside; simpl; lia].
  - destruct (query_outcomes docstring_reader (Range.make_range "chrZ" 0 1))
      as (_ & _ & _ & _ & H & _).
    apply H. reflexivity.
Defined.

(** C3. [is_valid] never raises: it returns a boolean, which is [True]
    exactly when [query] on the same region returns. *)
Theorem is_valid_iff_query_succeeds (self : t) (region : Range.t) :
  ∃ b : bool,
    outcome (is_valid region) self = Return b
    ∧ (b = true ↔ succeeds (outcome (query region) self)).
Proof.
  unfold outcome. rewrite is_valid_unfold, query_unfold. simpl.
  destruct (fst (_lookup_chromosome region self)) as [[[s e] b]|err];
    eexists; (split; [reflexivity|]); simpl; split; intros H;
    try discriminate; try exact I; try reflexivity; contradiction.
Qed.

(** C4. The reader built from the single entry ("1", 10, "ACGT"), which
    [__init__] returns whenever the record ("1", 14, 0) is admitted, as
    it is by an int64 extent and an int32 position:
    [query({"1", 11, 12})] returns "C"; [query({"1", 9, 10})] is refused,
    the held window reaching from 10 to 14 (OutOfBoundsError); and the
    ContigInfo of "1" reports 14 bases. *)
Theorem docstring_windowing :
  (∀ fc, reference_pb2.accepts fc "1" 14 0 = true →
         __init__ fc [("1"%string, 10, "ACGT"%string)]
         = Return docstring_reader)
  ∧ __init__ string_int64_int32 [("1"%string, 10, "ACGT"%string)]
    = Return docstring_reader
  ∧ outcome (query (Range.make_range "1" 11 12)) docstring_reader
    = Return "C"%string
  ∧ outcome (query (Range.make_range "1" 9 10)) docstring_reader
    = Raise (ValueError (Cannot_query_region (Range.make_range "1" 9 10)
                           10 14 "1"))
  ∧ fails_with (outcome (query (Range.make_range "1" 9 10)) docstring_reader)
      OutOfBoundsError
  ∧ ∃ info, outcome (contig "1") docstring_reader = Return info
            ∧ ContigInfo.n_bases info = 14.
Proof.
  split; [|split; [|split; [|split; [|split]]]]; try reflexivity.
  - intros fc Hacc. unfold __init__. cbn [init_loop].
    change (10 + py_len "ACGT") with 14. change (10 <? 0) with false.
    cbv iota. rewrite lookup_empty.
    rewrite bool_decide_eq_false_2 by (intros [? ?]; discriminate).
    rewrite bool_decide_eq_false_2 by discriminate.
    unfold reference_pb2.ContigInfo. rewrite Hacc. reflexivity.
  - eexists. split; reflexivity.
Qed.

Lemma docstring_windowing_witness :
  __init__
    (reference_pb2.Build_FieldChecks (λ _, true) (λ v, v <? 2 ^ 63)
       (λ v, v <? 2 ^ 31))
    [("1"%string, 10, "ACGT"%string)]
  = Return docstring_reader.
Proof.
  destruct docstring_windowing as (H & _).
  apply H. reflexivity.
Defined.

(** C9. Malformed comes first: when [start > end] and the reference name
    is no key of the store, [_lookup_chromosome] and [query] raise the
    malformed-region error, not the unknown-name one, and [is_valid]
    answers [False]. *)
Theorem malformed_before_unknown (self : t) (region : Range.t) :
  Range.start region > Range.end_ region →
  _chroms self !! Range.reference_name region = None →
  _lookup_chromosome region self
    = (Raise (ValueError (Malformed_query_region region)), self)
  ∧ query region self
    = (Raise (ValueError (Malformed_query_region region)), self)
  ∧ fails_with (outcome (query region) self) InvalidRegionError
  ∧ ¬ fails_with (outcome (query region) self) UnknownContigError
  ∧ is_valid region self = (Return false, self).
Proof.
  intros Hgt _.
  assert (Hl : _lookup_chromosome region self
               = (Raise (ValueError (Malformed_query_region region)), self)).
  { rewrite lookup_chromosome_unfold.
    destruct (Z.gtb_spec (Range.start region) (Range.end_ region)); [|lia].
    reflexivity. }
  split; [exact Hl|].
  unfold outcome. rewrite is_valid_unfold, Hl, query_malformed by exact Hgt.
  simpl. repeat split. discriminate.
Qed.

Lemma malformed_before_unknown_witness :
  query (Range.make_range "chrZ" 5 3) docstring_reader
  = (Raise (ValueError (Malformed_query_region (Range.make_range "chrZ" 5 3))),
     docstring_reader).
Proof.
  apply (malformed_before_unknown docstring_reader (Range.make_range "chrZ" 5 3)).
  - simpl. lia.
  - reflexivity.
Defined.

(** Every element of a list passes a decidable test on index and
    element, or one of them fails it. *)
Lemma lookup_all_or_exists {A : Type} (l : list A) :
  ∀ (P : nat → A → bool),
  (∀ k x, l !! k = Some x → P k x = true)
  ∨ (∃ k x, l !! k = Some x ∧ P k x = false).
Proof.
  induction l as [|a l IH]; intros P.
  - left. intros k x Hk. discriminate.
  - destruct (P 0%nat a) eqn:Hhead.
    + destruct (IH (λ k, P (S k))) as [Hall|(k & x & Hk & Hx)].
      * left. intros [|k] x Hk; simpl in Hk.
        -- injection Hk as <-. exact Hhead.
        -- apply Hall. exact Hk.
      * right. exists (S k), x. split; assumption.
    + right. exists 0%nat, a. split; [reflexivity|exact Hhead].
Qed.

(** C5, as the code has it.  [__init__] raises exactly when some entry
    has [start < 0], some entry has empty bases, the contig names of the
    input are not pairwise distinct, or the constructor of the ContigInfo
    message refuses the record of some entry (its name, its extent
    [start + len(bases)] or its index is not admitted by the field);
    each raise is an argument error (InvalidArgumentError), and otherwise
    [__init__] returns the reader.  Two entries named "1" are refused,
    as a duplicate when the first record is admitted. *)
Theorem init_fails_iff (fc : reference_pb2.FieldChecks)
    (chromosomes : list (string * Z * string)) :
  (fails_with (__init__ fc chromosomes) InvalidArgumentError ↔
     (∃ n s b, (n, s, b) ∈ chromosomes ∧ s < 0)
     ∨ (∃ n s, (n, s, EmptyString) ∈ chromosomes)
     ∨ ¬ NoDup (names chromosomes)
     ∨ (∃ (i : nat) n s b,
          chromosomes !! i = Some (n, s, b)
          ∧ ¬ succeeds (reference_pb2.ContigInfo fc n (s + py_len b)
                          (Z.of_nat i))))
  ∧ (succeeds (__init__ fc chromosomes)
     ∨ fails_with (__init__ fc chromosomes) InvalidArgumentError)
  ∧ fails_with
      (__init__ fc [("1"%string, 0, "A"%string); ("1"%string, 0, "C"%string)])
      InvalidArgumentError
  ∧ (reference_pb2.accepts fc "1" 1 0 = true →
     __init__ fc [("1"%string, 0, "A"%string); ("1"%string, 0, "C"%string)]
     = Raise (ValueError (Duplicate_chromosome "1"))).
Proof.
  assert (Hkind : ∀ l e, __init__ fc l = Raise e →
                         error_kind e = Some InvalidArgumentError).
  { unfold __init__. intros l e He.
    destruct (init_loop fc 0 l ∅ []) as [[? ?]|e'] eqn:Hrun;
      [discriminate|].
    injection He as <-. eapply init_loop_Raise_kind. exact Hrun. }
  assert (Hiff : ∀ l,
    fails_with (__init__ fc l) InvalidArgumentError ↔
      (∃ n s b, (n, s, b) ∈ l ∧ s < 0)
      ∨ (∃ n s, (n, s, EmptyString) ∈ l)
      ∨ ¬ NoDup (names l)
      ∨ (∃ (i : nat) n s b,
           l !! i = Some (n, s, b)
           ∧ ¬ succeeds (reference_pb2.ContigInfo fc n (s + py_len b)
                           (Z.of_nat i)))).
  { intros l. split.
    - intros Hfail.
      destruct (decide (Forall (λ e : string * Z * string,
                  0 <= e.1.2 ∧ e.2 ≠ EmptyString) l)) as [Hok|Hbad].
      + destruct (decide (NoDup (names l))) as [Hnd|Hdup];
          [|right; right; left; exact Hdup].
        destruct (lookup_all_or_exists l
                    (λ k e, reference_pb2.accepts fc e.1.1
                              (e.1.2 + py_len e.2) (Z.of_nat k)))
          as [Hall|(k & [[n s] b] & Hk & Hrej)].
        * exfalso.
          destruct (init_loop_Return_intro (fc := fc) l 0 ∅ [] Hok Hnd)
            as [[chroms' contigs'] Hrun].
          { intros n _. apply lookup_empty. }
          { intros k n s b Hk. apply (Hall k (n, s, b) Hk). }
          unfold __init__ in Hfail. rewrite Hrun in Hfail. exact Hfail.
        * right; right; right. exists k, n, s, b. split; [exact Hk|].
          rewrite ContigInfo_succeeds. simpl in Hrej. rewrite Hrej.
          discriminate.
      + apply not_Forall_Exists in Hbad; [|apply _].
        apply Exists_exists in Hbad as ([[n s] b] & Hin & Hnot).
        simpl in Hnot.
        destruct (decide (s < 0)) as [Hneg|Hpos];
          [left; exists n, s, b; auto|].
        right; left. exists n, s.
        destruct (decide (b = EmptyString)) as [->|Hb]; [exact Hin|].
        exfalso. apply Hnot. split; [lia|exact Hb].
    - intros Hcond.
      destruct (__init__ fc l) as [self|e] eqn:Hinit.
      + exfalso. unfold __init__ in Hinit.
        destruct (init_loop fc 0 l ∅ []) as [[chroms' contigs']|e] eqn:Hrun;
          [|discriminate].
        pose proof (init_loop_Return_accepted _ _ _ _ _ Hrun) as Hacc.
        apply init_loop_Return_inv in Hrun as (Hok & Hnd & _).
        rewrite Forall_forall in Hok.
        destruct Hcond as [(n & s & b & Hin & Hneg)
                          |[(n & s & Hin)
                           |[Hdup|(i & n & s & b & Hi & Hrej)]]].
        * destruct (Hok _ Hin) as [Hs _]. simpl in Hs. lia.
        * destruct (Hok _ Hin) as [_ Hb]. simpl in Hb. congruence.
        * contradiction.
        * apply Hrej. rewrite ContigInfo_succeeds.
          apply (Hacc i n s b Hi).
      + simpl. eapply Hkind. exact Hinit. }
  split; [apply Hiff|]. split; [|split].
  - destruct (__init__ fc chromosomes) as [self|e] eqn:Hinit.
    + left. exact I.
    + right. simpl. eapply Hkind. exact Hinit.
  - apply Hiff. right; right; left. intros Hnd. simpl in Hnd.
    apply NoDup_cons in Hnd as [Hnot _]. apply Hnot. left.
  - intros Hacc. unfold __init__. cbn [init_loop].
    change (0 + py_len "A") with 1. change (0 <? 0) with false.
    cbv iota. rewrite lookup_empty.
    rewrite bool_decide_eq_false_2 by (intros [? ?]; discriminate).
    rewrite bool_decide_eq_false_2 by discriminate.
    unfold reference_pb2.ContigInfo at 1. rewrite Hacc.
    rewrite lookup_insert_eq.
    rewrite bool_decide_eq_true_2 by eauto. reflexivity.
Qed.

Lemma init_fails_iff_witness :
  fails_with
    (__init__ string_int64_int32
       [("1"%string, 0, "A"%string); ("1"%string, 0, "C"%string)])
    InvalidArgumentError
  ∧ fails_with (__init__ string_int64_int32 [("1"%string, -1, "A"%string)])
      InvalidArgumentError
  ∧ fails_with (__init__ string_int64_int32 [("1"%string, 0, ""%string)])
      InvalidArgumentError
  ∧ fails_with
      (__init__ string_int64_int32 [("1"%string, 2 ^ 63 - 1, "A"%string)])
      InvalidArgumentError
  ∧ __init__ string_int64_int32
      [("1"%string, 0, "A"%string); ("1"%string, 0, "C"%string)]
    = Raise (ValueError (Duplicate_chromosome "1")).
Proof.
  split; [|split; [|split; [|split]]].
  - destruct (init_fails_iff string_int64_int32
                [("1"%string, 0, "A"%string); ("1"%string, 0, "C"%string)])
      as ([_ H] & _).
    apply H. right; right; left. intros Hnd. simpl in Hnd.
    apply NoDup_cons in Hnd as [Hnot _]. apply Hnot. left.
  - destruct (init_fails_iff string_int64_int32 [("1"%string, -1, "A"%string)])
      as ([_ H] & _).
    apply H. left. exists "1"%string, (-1), "A"%string.
    split; [left|lia].
  - destruct (init_fails_iff string_int64_int32 [("1"%string, 0, ""%string)])
      as ([_ H] & _).
    apply H. right; left. exists "1"%string, 0. left.
  - destruct (init_fails_iff string_int64_int32
                [("1"%string, 2 ^ 63 - 1, "A"%string)]) as ([_ H] & _).
    apply H. right; right; right.
    exists 0%nat, "1"%string, (2 ^ 63 - 1), "A"%string.
    split; [reflexivity|]. vm_compute. intros [].
  - destruct (init_fails_iff string_int64_int32 []) as (_ & _ & _ & H).
    apply H. reflexivity.
Defined.

(** C5 as it was claimed, with the three conditions only, fails: the
    entry ("1", 2^63 - 1, "A") has a start that is not negative, bases
    that are not empty and a name that occurs once, and [__init__]
    raises on it, its extent 2^63 being no int64. *)
Lemma init_fails_iff_counterexample :
  ¬ (fails_with
       (__init__ string_int64_int32 [("1"%string, 2 ^ 63 - 1, "A"%string)])
       InvalidArgumentError ↔
     (∃ n s b, (n, s, b) ∈ [("1"%string, 2 ^ 63 - 1, "A"%string)] ∧ s < 0)
     ∨ (∃ n s, (n, s, EmptyString) ∈ [("1"%string, 2 ^ 63 - 1, "A"%string)])
     ∨ ¬ NoDup (names [("1"%string, 2 ^ 63 - 1, "A"%string)])).
Proof.
  intros [Hfails _].
  destruct Hfails as [(n & s & b & Hin & Hneg)|[(n & s & Hin)|Hdup]].
  - vm_compute. reflexivity.
  - apply list_elem_of_singleton in Hin. injection Hin as -> -> ->. lia.
  - apply list_elem_of_singleton in Hin. discriminate.
  - apply Hdup. simpl. apply NoDup_singleton.
Qed.

(** C6. After [__init__] has returned, the entry (name, start, bases) at
    index [i] of the input is described by the [i]-th ContigInfo of the
    header: that name, [start + len(bases)] bases, position [i];
    [contig(name)] returns this very record, and [contig] of a name that
    is not in the input raises the unknown-contig error
    (UnknownContigError). *)
Theorem contig_of_entry {fc : reference_pb2.FieldChecks}
    (chromosomes : list (string * Z * string)) (self : t) :
  __init__ fc chromosomes = Return self →
  (∀ (i : nat) n s b,
     chromosomes !! i = Some (n, s, b) →
     contigs (header self) !! i
       = Some (ContigInfo.Build_t n (s + py_len b) (Z.of_nat i))
     ∧ contig n self
       = (Return (ContigInfo.Build_t n (s + py_len b) (Z.of_nat i)), self))
  ∧ (∀ n, n ∉ names chromosomes →
       contig n self = (Raise (ValueError (Unknown_contig n)), self)
       ∧ fails_with (outcome (contig n) self) UnknownContigError).
Proof.
  intros Hinit.
  pose proof (init_contig_names _ _ Hinit) as Hnames.
  pose proof Hinit as (_ & Hnd & _ & _ & Hcontigs)%init_Return_inv.
  split.
  - intros i n s b Hi.
    assert (Hith : contigs (header self) !! i
                   = Some (ContigInfo.Build_t n (s + py_len b) (Z.of_nat i))).
    { rewrite Hcontigs, list_lookup_imap, Hi. reflexivity. }
    split; [exact Hith|].
    unfold contig, bind, attr.
    apply (contig_loop_found self _ i
             (ContigInfo.Build_t n (s + py_len b) (Z.of_nat i)));
      [rewrite Hnames; exact Hnd|exact Hith].
  - intros n Hn.
    assert (Hc : contig n self
                 = (Raise (ValueError (Unknown_contig n)), self)).
    { unfold contig, bind, attr. apply contig_loop_missing.
      rewrite Hnames. exact Hn. }
    split; [exact Hc|]. unfold outcome. rewrite Hc. reflexivity.
Qed.

Lemma contig_of_entry_witness :
  contig "1" docstring_reader
  = (Return (ContigInfo.Build_t "1" (10 + py_len "ACGT") (Z.of_nat 0)),
     docstring_reader).
Proof.
  destruct (contig_of_entry (fc := string_int64_int32)
           docstring_chromosomes docstring_reader) as [H _].
  - reflexivity.
  - apply (H 0%nat "1"%string 10 "ACGT"%string). reflexivity.
Defined.

(** C7. [iterate] raises NotImplementedError (UnsupportedOperationError)
    on every [InMemoryRefReader] and on every [RefFastaReader], whatever
    the reader holds, and leaves the reader as it was. *)
Theorem iterate_unsupported :
  (∀ self : InMemoryRefReader.t,
     InMemoryRefReader.iterate self
     = (Raise (NotImplementedError Can_not_iterate_through_a_FASTA_file), self)
     ∧ fails_with (outcome InMemoryRefReader.iterate self)
         UnsupportedOperationError)
  ∧ (∀ (GenomeReferenceFai : Type) (self : RefFastaReader.t GenomeReferenceFai),
     RefFastaReader.iterate GenomeReferenceFai self
     = (Raise (NotImplementedError Can_not_iterate_through_a_FASTA_file), self)
     ∧ fails_with (outcome (RefFastaReader.iterate GenomeReferenceFai) self)
         UnsupportedOperationError).
Proof.
  split; intros; split; reflexivity.
Qed.

Lemma contig_loop_frame (self : t) (l : list ContigInfo.t) (n : string) :
  snd (contig_loop l n self) = self.
Proof.
  induction l as [|c l IH]; simpl; [reflexivity|].
  case_bool_decide; [reflexivity|exact IH].
Qed.

(** C8. [query], [is_valid] and [contig] hand back the reader they were
    given, with the same [_chroms] and [header], whether they return or
    raise; so a second [query] of the same region, run on the reader the
    first one left, has the same outcome as the first. *)
Theorem readers_leave_store_unchanged
    (self : t) (region : Range.t) (contig_name : string) :
  snd (query region self) = self
  ∧ snd (is_valid region self) = self
  ∧ snd (contig contig_name self) = self
  ∧ outcome (query region) (snd (query region self))
    = outcome (query region) self.
Proof.
  assert (Hq : snd (query region self) = self)
    by (rewrite query_unfold; reflexivity).
  split; [exact Hq|]. split; [rewrite is_valid_unfold; reflexivity|].
  split; [apply contig_loop_frame|].
  rewrite Hq. reflexivity.
Qed.

(** C10. On a reader made by [__init__], for a contig held with window
    [s, e) and bases [B]: [query({name, a, b})] is [B[a-s : b-s]] when
    [s <= a <= b <= e], which is the [b - a] characters of [B] from
    offset [a - s] on; the answers for [a, b) and [b, c) put together are
    the answer for [a, c) when [s <= a <= b <= c <= e]; and a region with
    [a == b], also at [a == e], is answered with the empty string. *)
Theorem query_is_substring {fc : reference_pb2.FieldChecks}
    (chromosomes : list (string * Z * string))
    (self : t) (contig_name : string) (s e : Z) (B : string) :
  __init__ fc chromosomes = Return self →
  _chroms self !! contig_name = Some (_InMemoryChromosome.Build_t s e B) →
  (∀ a b, s <= a → a <= b → b <= e →
     query (Range.make_range contig_name a b) self
       = (Return (py_slice B (a - s) (b - s)), self)
     ∧ py_slice B (a - s) (b - s)
       = substring (Z.to_nat (a - s)) (Z.to_nat (b - a)) B
     ∧ ∀ k : nat, (k < Z.to_nat (b - a))%nat →
         String.get k (py_slice B (a - s) (b - s))
         = String.get (k + Z.to_nat (a - s)) B)
  ∧ (∀ a b c, s <= a → a <= b → b <= c → c <= e →
     ∃ x y z,
       outcome (query (Range.make_range contig_name a b)) self = Return x
       ∧ outcome (query (Range.make_range contig_name b c)) self = Return y
       ∧ outcome (query (Range.make_range contig_name a c)) self = Return z
       ∧ String.append x y = z)
  ∧ (∀ a, s <= a → a <= e →
     query (Range.make_range contig_name a a) self
       = (Return EmptyString, self)).
Proof.
  intros Hinit Hc.
  destruct (init_windows _ _ _ _ Hinit Hc) as (Hs & He & _). simpl in Hs, He.
  assert (Hquery : ∀ a b, s <= a → a <= b → b <= e →
            query (Range.make_range contig_name a b) self
            = (Return (py_slice B (a - s) (b - s)), self)).
  { intros a b Ha Hab Hb.
    apply (query_inside self (Range.make_range contig_name a b)
             (_InMemoryChromosome.Build_t s e B));
      [exact Hab|exact Hc|split; assumption]. }
  assert (Hslice : ∀ a b, s <= a → a <= b → b <= e →
            py_slice B (a - s) (b - s)
            = substring (Z.to_nat (a - s)) (Z.to_nat (b - a)) B).
  { intros a b Ha Hab Hb. rewrite py_slice_inside by lia.
    f_equal. f_equal. lia. }
  split; [|split].
  - intros a b Ha Hab Hb.
    split; [apply Hquery; assumption|].
    split; [apply Hslice; assumption|].
    intros k Hk. rewrite Hslice by assumption.
    apply substring_correct1. exact Hk.
  - intros a b c Ha Hab Hbc Hce.
    exists (py_slice B (a - s) (b - s)), (py_slice B (b - s) (c - s)),
           (py_slice B (a - s) (c - s)).
    unfold outcome. rewrite !Hquery by lia. simpl.
    repeat (split; [reflexivity|]).
    rewrite !Hslice by lia.
    replace (Z.to_nat (b - s)) with (Z.to_nat (a - s) + Z.to_nat (b - a))%nat
      by lia.
    replace (Z.to_nat (c - a)) with (Z.to_nat (b - a) + Z.to_nat (c - b))%nat
      by lia.
    apply substring_split.
  - intros a Ha Hae. rewrite Hquery by lia. f_equal. f_equal.
    rewrite Hslice by lia. replace (a - a) with 0 by lia.
    apply substring_nothing.
Qed.

Lemma query_is_substring_witness :
  query (Range.make_range "1" 11 13) docstring_reader
  = (Return (py_slice "ACGT" (11 - 10) (13 - 10)), docstring_reader)
  ∧ (∃ x y z,
       outcome (query (Range.make_range "1" 10 11)) docstring_reader = Return x
       ∧ outcome (query (Range.make_range "1" 11 14)) docstring_reader
         = Return y
       ∧ outcome (query (Range.make_range "1" 10 14)) docstring_reader
         = Return z
       ∧ String.append x y = z)
  ∧ query (Range.make_range "1" 14 14) docstring_reader
    = (Return EmptyString, docstring_reader).
Proof.
  destruct (query_is_substring (fc := string_int64_int32)
           docstring_chromosomes docstring_reader
              "1"%string 10 14 "ACGT"%string) as (H1 & H2 & H3).
  - reflexivity.
  - reflexivity.
  - split; [|split].
    + apply H1; lia.
    + apply H2; lia.
    + apply H3; lia.
Defined.

(** ** Further properties of the reader *)

Lemma py_len_positive (s : string) : s ≠ EmptyString → 0 < py_len s.
Proof.
  destruct s as [|c s]; [congruence|]. intros _. unfold py_len. simpl. lia.
Qed.

Lemma substring_whole (s : string) : substring 0 (String.length s) s = s.
Proof.
  induction s as [|c s IH]; simpl; [reflexivity|]. f_equal. exact IH.
Qed.

Lemma substring_substring (s : string) :
  ∀ n m n' m' : nat,
  (n' + m' <= m)%nat →
  substring n' m' (substring n m s) = substring (n + n') m' s.
Proof.
  induction s as [|c s IH]; intros n m n' m' Hle.
  - destruct n, m; simpl; destruct n', m'; reflexivity.
  - destruct n as [|n]; [|simpl; apply IH; exact Hle].
    destruct m as [|m].
    + assert (n' = 0%nat) as -> by lia. assert (m' = 0%nat) as -> by lia.
      reflexivity.
    + destruct n' as [|n'].
      * destruct m' as [|m']; [reflexivity|].
        simpl. f_equal. apply (IH 0%nat m 0%nat m'). lia.
      * simpl. apply (IH 0%nat m n' m'). lia.
Qed.

(** The window found under a name is the one its input entry gave. *)
Lemma init_chroms_Some {fc : reference_pb2.FieldChecks}
    (chromosomes : list (string * Z * string)) (self : t)
    (n : string) (c : _InMemoryChromosome.t) :
  __init__ fc chromosomes = Return self →
  _chroms self !! n = Some c →
  ∃ s b, (n, s, b) ∈ chromosomes
         ∧ c = _InMemoryChromosome.Build_t s (s + py_len b) b.
Proof.
  intros (_ & _ & Hnone & Hget & _)%init_Return_inv Hc.
  destruct (decide (n ∈ names chromosomes)) as [Hin|Hnot].
  - apply list_elem_of_fmap in Hin as ([[n' s] b] & -> & Hin). simpl in Hc.
    rewrite (Hget _ _ _ Hin) in Hc. injection Hc as <-. eauto.
  - rewrite (Hnone _ Hnot) in Hc. discriminate.
Qed.

(** [query] and [is_valid] read nothing of the reader but [_chroms]. *)
Lemma lookup_depends_on_chroms (self self' : t) (region : Range.t) :
  _chroms self = _chroms self' →
  fst (_lookup_chromosome region self) = fst (_lookup_chromosome region self').
Proof.
  intros Heq. rewrite !lookup_chromosome_unfold. simpl. rewrite Heq.
  reflexivity.
Qed.

(** X1. The dictionary of a constructed reader holds the input and
    nothing else: a name is a key exactly when it is the name of an entry
    (name, start, bases), and it is then bound to the window
    (start, start + len(bases), bases); there are as many keys as
    entries. *)
Theorem init_chroms_lookup {fc : reference_pb2.FieldChecks}
    (chromosomes : list (string * Z * string))
    (self : t) :
  __init__ fc chromosomes = Return self →
  (∀ n c, _chroms self !! n = Some c ↔
          ∃ s b, (n, s, b) ∈ chromosomes
                 ∧ c = _InMemoryChromosome.Build_t s (s + py_len b) b)
  ∧ (∀ n, _chroms self !! n = None ↔ n ∉ names chromosomes)
  ∧ dom (_chroms self) = list_to_set (names chromosomes)
  ∧ size (_chroms self) = length chromosomes.
Proof.
  intros Hinit.
  pose proof Hinit as (_ & Hnd & Hnone & Hget & _)%init_Return_inv.
  assert (Hkeys : ∀ n, _chroms self !! n = None ↔ n ∉ names chromosomes).
  { intros n. split; [|apply Hnone].
    intros Hn Hin.
    apply list_elem_of_fmap in Hin as ([[n' s] b] & -> & Hin).
    simpl in Hn. rewrite (Hget _ _ _ Hin) in Hn. discriminate. }
  assert (Hdom : dom (_chroms self) = list_to_set (names chromosomes)).
  { apply set_eq. intros n. rewrite elem_of_dom, elem_of_list_to_set.
    rewrite <- not_eq_None_Some, Hkeys.
    split; [apply dec_stable|intros Hin Hnot; exact (Hnot Hin)]. }
  split; [|split; [exact Hkeys|split; [exact Hdom|]]].
  - intros n c. split.
    + apply (init_chroms_Some (fc := fc)). exact Hinit.
    + intros (s & b & Hin & ->). apply Hget. exact Hin.
  - rewrite <- size_dom, Hdom, size_list_to_set by exact Hnd.
    apply length_map.
Qed.

Lemma init_chroms_lookup_witness :
  _chroms docstring_reader !! "1"%string = Some docstring_chromosome
  ↔ ∃ s b, ("1"%string, s, b) ∈ docstring_chromosomes
           ∧ docstring_chromosome
             = _InMemoryChromosome.Build_t s (s + py_len b) b.
Proof.
  destruct (init_chroms_lookup (fc := string_int64_int32)
           docstring_chromosomes docstring_reader)
    as (H & _).
  - reflexivity.
  - apply H.
Defined.

(** X2. Every window a constructed reader holds starts at 0 or later,
    holds at least one base, and ends [len(bases)] after its start. *)
Theorem held_windows_well_formed {fc : reference_pb2.FieldChecks}
    (chromosomes : list (string * Z * string))
    (self : t) (n : string) (c : _InMemoryChromosome.t) :
  __init__ fc chromosomes = Return self →
  _chroms self !! n = Some c →
  0 <= _InMemoryChromosome.start c
  ∧ _InMemoryChromosome.start c < _InMemoryChromosome.end_ c
  ∧ _InMemoryChromosome.end_ c - _InMemoryChromosome.start c
    = py_len (_InMemoryChromosome.bases c).
Proof.
  intros Hinit Hc.
  destruct (init_windows _ _ _ _ Hinit Hc) as (Hs & He & Hb).
  apply py_len_positive in Hb. lia.
Qed.

Lemma held_windows_well_formed_witness :
  0 <= _InMemoryChromosome.start docstring_chromosome
  ∧ _InMemoryChromosome.start docstring_chromosome
    < _InMemoryChromosome.end_ docstring_chromosome
  ∧ _InMemoryChromosome.end_ docstring_chromosome
    - _InMemoryChromosome.start docstring_chromosome
    = py_len (_InMemoryChromosome.bases docstring_chromosome).
Proof.
  apply (held_windows_well_formed (fc := string_int64_int32)
           docstring_chromosomes docstring_reader
           "1"%string docstring_chromosome); reflexivity.
Defined.

(** The loop run on two lists in a row. *)
Lemma init_loop_app {fc : reference_pb2.FieldChecks}
    (pre rest : list (string * Z * string)) :
  ∀ i chroms contigs,
  init_loop fc i (pre ++ rest) chroms contigs =
  match init_loop fc i pre chroms contigs with
  | Return (chroms', contigs') =>
      init_loop fc (i + Z.of_nat (length pre)) rest chroms' contigs'
  | Raise e => Raise e
  end.
Proof.
  induction pre as [|[[n s] b] pre IH]; intros i chroms contigs.
  - simpl. f_equal. lia.
  - simpl. destruct (s <? 0); [reflexivity|].
    case_bool_decide; [reflexivity|]. case_bool_decide; [reflexivity|].
    destruct (reference_pb2.ContigInfo fc n (s + py_len b) i) as [info|err];
      [|reflexivity].
    rewrite IH.
    destruct (init_loop fc _ pre _ _) as [[chroms' contigs']|e];
      [|reflexivity].
    f_equal. lia.
Qed.

(** What [contig] finds for the entry at index [i] of the input. *)
Lemma init_contig_at {fc : reference_pb2.FieldChecks}
    (chromosomes : list (string * Z * string)) (self : t)
    (i : nat) (n : string) (s : Z) (b : string) :
  __init__ fc chromosomes = Return self →
  chromosomes !! i = Some (n, s, b) →
  contigs (header self) !! i
    = Some (ContigInfo.Build_t n (s + py_len b) (Z.of_nat i))
  ∧ contig n self
    = (Return (ContigInfo.Build_t n (s + py_len b) (Z.of_nat i)), self).
Proof.
  intros Hinit Hi.
  pose proof (init_contig_names _ _ Hinit) as Hnames.
  pose proof Hinit as (_ & Hnd & _ & _ & Hcontigs)%init_Return_inv.
  assert (Hith : contigs (header self) !! i
                 = Some (ContigInfo.Build_t n (s + py_len b) (Z.of_nat i))).
  { rewrite Hcontigs, list_lookup_imap, Hi. reflexivity. }
  split; [exact Hith|].
  unfold contig, bind, attr.
  apply (contig_loop_found self _ i
           (ContigInfo.Build_t n (s + py_len b) (Z.of_nat i)));
    [rewrite Hnames; exact Hnd|exact Hith].
Qed.

(** X3. The header of a constructed reader lists the input in order, one
    record per entry with distinct names, and agrees with the dictionary:
    the record at index [i] has position [i], reports at least one base,
    and its [n_bases] is the [end] of the window held under its name;
    every key of the dictionary has such a record. *)
Theorem header_agrees_with_chroms {fc : reference_pb2.FieldChecks}
    (chromosomes : list (string * Z * string))
    (self : t) :
  __init__ fc chromosomes = Return self →
  length (contigs (header self)) = length chromosomes
  ∧ NoDup (map ContigInfo.name (contigs (header self)))
  ∧ (∀ (i : nat) info,
       contigs (header self) !! i = Some info →
       ContigInfo.pos_in_fasta info = Z.of_nat i
       ∧ 1 <= ContigInfo.n_bases info
       ∧ ∃ c, _chroms self !! ContigInfo.name info = Some c
              ∧ _InMemoryChromosome.end_ c = ContigInfo.n_bases info)
  ∧ (∀ n c, _chroms self !! n = Some c →
       ∃ (i : nat) info,
         contigs (header self) !! i = Some info
         ∧ ContigInfo.name info = n
         ∧ ContigInfo.n_bases info = _InMemoryChromosome.end_ c).
Proof.
  intros Hinit.
  pose proof (init_contig_names _ _ Hinit) as Hnames.
  pose proof Hinit as (Hok & Hnd & _ & Hget & Hcontigs)%init_Return_inv.
  split; [rewrite Hcontigs; apply length_imap|].
  split; [rewrite Hnames; exact Hnd|].
  split.
  - intros i info Hi. rewrite Hcontigs, list_lookup_imap in Hi.
    destruct (chromosomes !! i) as [[[n s] b]|] eqn:Hentry; [|discriminate].
    simpl in Hi. injection Hi as <-. simpl.
    apply list_elem_of_lookup_2 in Hentry.
    rewrite Forall_forall in Hok. destruct (Hok _ Hentry) as [Hs Hb].
    simpl in Hs, Hb. apply py_len_positive in Hb.
    split; [reflexivity|]. split; [lia|].
    eexists. split; [apply Hget; exact Hentry|reflexivity].
  - intros n c Hc.
    destruct (init_chroms_Some _ _ _ _ Hinit Hc) as (s & b & Hin & ->).
    apply list_elem_of_lookup_1 in Hin as [i Hi].
    destruct (init_contig_at _ _ _ _ _ _ Hinit Hi) as [Hith _].
    eexists i, _. split; [exact Hith|]. split; reflexivity.
Qed.

Lemma header_agrees_with_chroms_witness :
  length (contigs (header docstring_reader)) = length docstring_chromosomes.
Proof.
  apply (header_agrees_with_chroms (fc := string_int64_int32)
           docstring_chromosomes docstring_reader).
  reflexivity.
Defined.

(** X4. [__init__] reports the first entry that fails a check, and on
    that entry the checks run in the order negative start, duplicate
    name, empty bases, constructor of the record: after a prefix on which
    [__init__] returns, an entry with [start < 0] raises the start error
    even when its name is a duplicate or its bases are empty; otherwise a
    name already seen raises the duplicate error even when the bases are
    empty; otherwise empty bases raise the bases error; otherwise a
    record the message runtime refuses raises its error.  What follows
    the entry is never looked at. *)
Theorem init_first_error (fc : reference_pb2.FieldChecks)
    (pre rest : list (string * Z * string)) (self0 : t)
    (n : string) (s : Z) (b : string) :
  __init__ fc pre = Return self0 →
  (s < 0 →
     __init__ fc (pre ++ (n, s, b) :: rest)
     = Raise (ValueError (start_must_be_nonnegative s n)))
  ∧ (0 <= s → n ∈ names pre →
     __init__ fc (pre ++ (n, s, b) :: rest)
     = Raise (ValueError (Duplicate_chromosome n)))
  ∧ (0 <= s → n ∉ names pre → b = EmptyString →
     __init__ fc (pre ++ (n, s, b) :: rest)
     = Raise (ValueError (Bases_must_contain_at_least_one_base b)))
  ∧ (0 <= s → n ∉ names pre → b ≠ EmptyString →
     reference_pb2.accepts fc n (s + py_len b) (Z.of_nat (length pre))
       = false →
     __init__ fc (pre ++ (n, s, b) :: rest)
     = Raise (ValueError (ContigInfo_field_rejected n (s + py_len b)
                            (Z.of_nat (length pre))))).
Proof.
  intros Hpre. unfold __init__ in Hpre.
  destruct (init_loop fc 0 pre ∅ []) as [[chroms' contigs']|e] eqn:Hrun;
    [|discriminate].
  pose proof (init_loop_Return_inv _ _ _ _ _ _ Hrun)
    as (_ & _ & _ & Hkeep & Hget & _).
  unfold __init__. rewrite init_loop_app, Hrun, Z.add_0_l. cbn [init_loop].
  split; [|split; [|split]].
  - intros Hneg. destruct (Z.ltb_spec s 0); [reflexivity|lia].
  - intros Hs Hin. destruct (Z.ltb_spec s 0); [lia|].
    apply list_elem_of_fmap in Hin as ([[n' s'] b'] & -> & Hin). simpl.
    rewrite bool_decide_eq_true_2; [reflexivity|].
    rewrite (Hget _ _ _ Hin). eauto.
  - intros Hs Hnot ->. destruct (Z.ltb_spec s 0); [lia|].
    rewrite bool_decide_eq_false_2; [reflexivity|].
    rewrite (Hkeep _ Hnot), lookup_empty. intros [? ?]. discriminate.
  - intros Hs Hnot Hb Hrej. destruct (Z.ltb_spec s 0); [lia|].
    rewrite bool_decide_eq_false_2.
    2:{ rewrite (Hkeep _ Hnot), lookup_empty. intros [? ?]. discriminate. }
    rewrite bool_decide_eq_false_2 by exact Hb.
    unfold reference_pb2.ContigInfo. rewrite Hrej. reflexivity.
Qed.

Lemma init_first_error_witness :
  __init__ string_int64_int32
    (docstring_chromosomes
     ++ ("1"%string, -1, ""%string) :: docstring_chromosomes)
  = Raise (ValueError (start_must_be_nonnegative (-1) "1"))
  ∧ __init__ string_int64_int32
      (docstring_chromosomes
       ++ ("1"%string, 0, ""%string) :: docstring_chromosomes)
    = Raise (ValueError (Duplicate_chromosome "1"))
  ∧ __init__ string_int64_int32
      (docstring_chromosomes
       ++ ("2"%string, 0, ""%string) :: docstring_chromosomes)
    = Raise (ValueError (Bases_must_contain_at_least_one_base ""))
  ∧ __init__ string_int64_int32
      (docstring_chromosomes
       ++ ("2"%string, 2 ^ 63 - 1, "A"%string) :: docstring_chromosomes)
    = Raise (ValueError (ContigInfo_field_rejected "2"
                           (2 ^ 63 - 1 + py_len "A")
                           (Z.of_nat (length docstring_chromosomes)))).
Proof.
  assert (Hpre : __init__ string_int64_int32 docstring_chromosomes
                 = Return docstring_reader) by reflexivity.
  assert (Hfresh : "2"%string ∉ names docstring_chromosomes).
  { simpl. intros [Heq|Hin]%elem_of_cons; [discriminate|inversion Hin]. }
  split; [|split; [|split]].
  - destruct (init_first_error string_int64_int32 docstring_chromosomes
                docstring_chromosomes docstring_reader
                "1"%string (-1) ""%string Hpre) as (H & _).
    apply H. lia.
  - destruct (init_first_error string_int64_int32 docstring_chromosomes
                docstring_chromosomes docstring_reader
                "1"%string 0 ""%string Hpre) as (_ & H & _).
    apply H; [lia|simpl; left].
  - destruct (init_first_error string_int64_int32 docstring_chromosomes
                docstring_chromosomes docstring_reader
                "2"%string 0 ""%string Hpre) as (_ & _ & H & _).
    apply H; [lia|exact Hfresh|reflexivity].
  - destruct (init_first_error string_int64_int32 docstring_chromosomes
                docstring_chromosomes docstring_reader
                "2"%string (2 ^ 63 - 1) "A"%string Hpre) as (_ & _ & _ & H).
    apply H; [lia|exact Hfresh|discriminate|reflexivity].
Defined.

(** X5. On any reader, [is_valid] answers [True] exactly for the regions
    with [start <= end] whose name is a key of the dictionary and whose
    ends lie within the window held under it; for all others it answers
    [False]. *)
Theorem is_valid_true_iff (self : t) (region : Range.t) :
  (is_valid region self = (Return true, self) ↔
     Range.start region <= Range.end_ region
     ∧ ∃ c, _chroms self !! Range.reference_name region = Some c
            ∧ inside region c)
  ∧ (is_valid region self = (Return false, self) ↔
     ¬ (Range.start region <= Range.end_ region
        ∧ ∃ c, _chroms self !! Range.reference_name region = Some c
               ∧ inside region c)).
Proof.
  rewrite is_valid_unfold, lookup_chromosome_unfold. simpl. unfold inside.
  destruct (Z.gtb_spec (Range.start region) (Range.end_ region)) as [Hgt|Hle].
  { split; split; try discriminate; try reflexivity.
    - intros [H _]. lia.
    - intros _ [H _]. lia. }
  destruct (_chroms self !! Range.reference_name region) as [c|].
  2:{ split; split; try discriminate; try reflexivity.
      - intros (_ & c & Hc & _). discriminate.
      - intros _ (_ & c & Hc & _). discriminate. }
  destruct (Z.ltb_spec (Range.start region) (_InMemoryChromosome.start c));
    simpl.
  { split; split; try discriminate; try reflexivity.
    - intros (_ & c' & Hc & Hin). injection Hc as <-. lia.
    - intros _ (_ & c' & Hc & Hin). injection Hc as <-. lia. }
  destruct (Z.gtb_spec (Range.end_ region) (_InMemoryChromosome.end_ c)).
  { split; split; try discriminate; try reflexivity.
    - intros (_ & c' & Hc & Hin). injection Hc as <-. lia.
    - intros _ (_ & c' & Hc & Hin). injection Hc as <-. lia. }
  split; split; try discriminate; try reflexivity.
  - intros _. split; [exact Hle|]. exists c. split; [reflexivity|lia].
  - intros Hnot. exfalso. apply Hnot.
    split; [exact Hle|]. exists c. split; [reflexivity|lia].
Qed.

Lemma is_valid_true_iff_witness :
  is_valid (Range.make_range "1" 10 14) docstring_reader
  = (Return true, docstring_reader).
Proof.
  destruct (is_valid_true_iff docstring_reader (Range.make_range "1" 10 14))
    as ([_ H] & _).
  apply H. simpl. split; [lia|].
  exists docstring_chromosome. split; [reflexivity|].
  unfold inside. simpl. lia.
Defined.

(** X6. Asking a constructed reader for the whole window of an input
    entry gives back the bases of that entry. *)
Theorem query_whole_window {fc : reference_pb2.FieldChecks}
    (chromosomes : list (string * Z * string))
    (self : t) (n : string) (s : Z) (b : string) :
  __init__ fc chromosomes = Return self →
  (n, s, b) ∈ chromosomes →
  query (Range.make_range n s (s + py_len b)) self = (Return b, self).
Proof.
  intros Hinit Hin.
  pose proof Hinit as (_ & _ & _ & Hget & _)%init_Return_inv.
  rewrite (query_inside self _ (_InMemoryChromosome.Build_t s (s + py_len b) b)).
  - simpl. f_equal. f_equal.
    rewrite py_slice_inside by (unfold py_len; lia).
    replace (s - s) with 0 by lia.
    replace (s + py_len b - s - 0) with (py_len b) by lia.
    unfold py_len. rewrite Nat2Z.id. apply substring_whole.
  - simpl. unfold py_len. lia.
  - simpl. apply Hget. exact Hin.
  - unfold inside. simpl. lia.
Qed.

Lemma query_whole_window_witness :
  query (Range.make_range "1" 10 (10 + py_len "ACGT")) docstring_reader
  = (Return "ACGT"%string, docstring_reader).
Proof.
  apply (query_whole_window (fc := string_int64_int32)
           docstring_chromosomes docstring_reader).
  - reflexivity.
  - left.
Defined.

(** X7. On a constructed reader, a region that is valid makes every
    region within it valid, and the answer for the inner region is the
    matching slice of the answer for the outer one. *)
Theorem query_subregion {fc : reference_pb2.FieldChecks}
    (chromosomes : list (string * Z * string))
    (self : t) (n : string) (a b a' b' : Z) :
  __init__ fc chromosomes = Return self →
  is_valid (Range.make_range n a b) self = (Return true, self) →
  a <= a' → a' <= b' → b' <= b →
  is_valid (Range.make_range n a' b') self = (Return true, self)
  ∧ ∃ outer inner,
      query (Range.make_range n a b) self = (Return outer, self)
      ∧ query (Range.make_range n a' b') self = (Return inner, self)
      ∧ inner = py_slice outer (a' - a) (b' - a).
Proof.
  intros Hinit Hvalid Ha Hab Hb.
  rewrite is_valid_unfold, lookup_chromosome_unfold in Hvalid.
  rewrite is_valid_unfold, lookup_chromosome_unfold. simpl in *.
  destruct (Z.gtb_spec a b) as [|Hle]; [discriminate|].
  destruct (_chroms self !! n) as [[s e B]|] eqn:Hc; [|discriminate].
  simpl in *.
  destruct (Z.ltb_spec a s) as [|Hlo]; [discriminate|].
  destruct (Z.gtb_spec b e) as [|Hhi]; [discriminate|].
  destruct (init_windows _ _ _ _ Hinit Hc) as (Hs & He & _). simpl in Hs, He.
  destruct (Z.gtb_spec a' b'); [lia|].
  destruct (Z.ltb_spec a' s); [lia|].
  destruct (Z.gtb_spec b' e); [lia|].
  split; [reflexivity|].
  exists (py_slice B (a - s) (b - s)), (py_slice B (a' - s) (b' - s)).
  split; [|split].
  - apply (query_inside self (Range.make_range n a b)
             (_InMemoryChromosome.Build_t s e B));
      [exact Hle|exact Hc|split; assumption].
  - apply (query_inside self (Range.make_range n a' b')
             (_InMemoryChromosome.Build_t s e B));
      [simpl; lia|exact Hc|split; simpl; lia].
  - rewrite (py_slice_inside B (a - s)), (py_slice_inside B (a' - s)) by lia.
    rewrite py_slice_inside.
    + rewrite substring_substring by lia. f_equal; lia.
    + lia.
    + lia.
    + unfold py_len in *. rewrite length_substring by lia. lia.
Qed.

Lemma query_subregion_witness :
  is_valid (Range.make_range "1" 11 12) docstring_reader
  = (Return true, docstring_reader)
  ∧ ∃ outer inner,
      query (Range.make_range "1" 10 14) docstring_reader
      = (Return outer, docstring_reader)
      ∧ query (Range.make_range "1" 11 12) docstring_reader
        = (Return inner, docstring_reader)
      ∧ inner = py_slice outer (11 - 10) (12 - 10).
Proof.
  apply (query_subregion (fc := string_int64_int32)
           docstring_chromosomes docstring_reader
           "1"%string 10 14 11 12); [reflexivity|reflexivity|lia|lia|lia].
Defined.

Lemma contig_loop_first (self : t) (pre post : list ContigInfo.t)
    (c : ContigInfo.t) :
  ContigInfo.name c ∉ map ContigInfo.name pre →
  contig_loop (pre ++ c :: post) (ContigInfo.name c) self = (Return c, self).
Proof.
  induction pre as [|c0 pre IH]; intros Hnot; simpl.
  - rewrite bool_decide_eq_true_2 by reflexivity. reflexivity.
  - simpl in Hnot. apply not_elem_of_cons in Hnot as [Hne Hnot].
    rewrite bool_decide_eq_false_2 by congruence. apply IH. exact Hnot.
Qed.

Lemma contig_loop_Return (self : t) (l : list ContigInfo.t) (n : string)
    (c : ContigInfo.t) :
  fst (contig_loop l n self) = Return c →
  ∃ pre post, l = pre ++ c :: post
              ∧ ContigInfo.name c = n
              ∧ n ∉ map ContigInfo.name pre.
Proof.
  induction l as [|c0 l IH]; simpl; [discriminate|].
  case_bool_decide as Hname.
  - simpl. intros [= <-]. exists [], l. split; [reflexivity|].
    split; [exact Hname|]. simpl. apply not_elem_of_nil.
  - intros (pre & post & -> & Hc & Hnot)%IH.
    exists (c0 :: pre), post. split; [reflexivity|]. split; [exact Hc|].
    simpl. apply not_elem_of_cons. split; [congruence|exact Hnot].
Qed.

(** X8. On any reader, whatever its header holds, [contig(name)] returns
    the first record of the header with that name, skipping the records
    before it; it raises the unknown-contig error exactly when no record
    has the name. *)
Theorem contig_first_match (self : t) (n : string) :
  (∀ c, contig n self = (Return c, self) ↔
        ∃ pre post,
          contigs (header self) = pre ++ c :: post
          ∧ ContigInfo.name c = n
          ∧ n ∉ map ContigInfo.name pre)
  ∧ (contig n self = (Raise (ValueError (Unknown_contig n)), self) ↔
     n ∉ map ContigInfo.name (contigs (header self))).
Proof.
  unfold contig, bind, attr. simpl. split.
  - intros c. split.
    + intros Hc. apply (contig_loop_Return self). rewrite Hc. reflexivity.
    + intros (pre & post & -> & <- & Hnot).
      apply contig_loop_first. exact Hnot.
  - split; [|apply contig_loop_missing].
    intros Hraise Hin.
    apply list_elem_of_fmap in Hin as (c & -> & Hin).
    apply list_elem_of_lookup_1 in Hin as [i Hi].
    induction (contigs (header self)) as [|c0 l IH] in i, Hi, Hraise |- *;
      [discriminate|].
    simpl in Hraise. case_bool_decide as Hname; [discriminate|].
    destruct i as [|i]; simpl in Hi.
    + injection Hi as ->. congruence.
    + eapply IH; eassumption.
Qed.

Lemma contig_first_match_witness :
  contig "1" docstring_reader
  = (Return (ContigInfo.Build_t "1" 14 0), docstring_reader).
Proof.
  destruct (contig_first_match docstring_reader "1"%string) as (H & _).
  apply H. exists [], []. split; [reflexivity|]. split; [reflexivity|].
  simpl. apply not_elem_of_nil.
Defined.

(** X9. On a constructed reader a valid region lies within the extent
    its contig record reports: [contig] of its reference name returns a
    record, and [0 <= start <= end <= n_bases].  So no region with a
    negative start is valid. *)
Theorem valid_region_within_contig {fc : reference_pb2.FieldChecks}
    (chromosomes : list (string * Z * string))
    (self : t) (region : Range.t) :
  __init__ fc chromosomes = Return self →
  is_valid region self = (Return true, self) →
  ∃ info, contig (Range.reference_name region) self = (Return info, self)
          ∧ ContigInfo.name info = Range.reference_name region
          ∧ 0 <= Range.start region
          ∧ Range.start region <= Range.end_ region
          ∧ Range.end_ region <= ContigInfo.n_bases info.
Proof.
  intros Hinit Hvalid.
  rewrite is_valid_unfold, lookup_chromosome_unfold in Hvalid.
  simpl in Hvalid.
  destruct (Z.gtb_spec (Range.start region) (Range.end_ region)) as [|Hle];
    [discriminate|].
  destruct (_chroms self !! Range.reference_name region) as [c|] eqn:Hc;
    [|discriminate].
  destruct (Z.ltb_spec (Range.start region) (_InMemoryChromosome.start c))
    as [|Hlo]; [discriminate|].
  destruct (Z.gtb_spec (Range.end_ region) (_InMemoryChromosome.end_ c))
    as [|Hhi]; [discriminate|].
  destruct (init_windows _ _ _ _ Hinit Hc) as (Hs & _ & _).
  destruct (init_chroms_Some _ _ _ _ Hinit Hc) as (s & b & Hin & ->).
  apply list_elem_of_lookup_1 in Hin as [i Hi].
  destruct (init_contig_at _ _ _ _ _ _ Hinit Hi) as [_ Hcontig].
  eexists. split; [exact Hcontig|]. simpl in *.
  split; [reflexivity|]. lia.
Qed.

Lemma valid_region_within_contig_witness :
  ∃ info, contig "1" docstring_reader = (Return info, docstring_reader)
          ∧ ContigInfo.name info = "1"%string
          ∧ 0 <= 11 ∧ 11 <= 13 ∧ 13 <= ContigInfo.n_bases info.
Proof.
  apply (valid_region_within_contig (fc := string_int64_int32)
           docstring_chromosomes docstring_reader
           (Range.make_range "1" 11 13)); reflexivity.
Defined.

(** X10. [_lookup_chromosome], [query] and [contig] raise nothing but
    [ValueError]: the subscript [self._chroms[...]] comes after the
    membership test and cannot raise [KeyError]. *)
Theorem only_ValueError_raised (self : t) (region : Range.t) (n : string)
    (e : exn) :
  (outcome (_lookup_chromosome region) self = Raise e →
   ∃ msg, e = ValueError msg)
  ∧ (outcome (query region) self = Raise e → ∃ msg, e = ValueError msg)
  ∧ (outcome (contig n) self = Raise e → ∃ msg, e = ValueError msg).
Proof.
  assert (Hl : outcome (_lookup_chromosome region) self = Raise e →
               ∃ msg, e = ValueError msg).
  { unfold outcome. rewrite lookup_chromosome_unfold. simpl.
    destruct (Range.start region >? Range.end_ region);
      [intros [= <-]; eauto|].
    destruct (_chroms self !! Range.reference_name region) as [c|];
      [|intros [= <-]; eauto].
    destruct ((Range.start region <? _InMemoryChromosome.start c)
              || (Range.end_ region >? _InMemoryChromosome.end_ c));
      [intros [= <-]; eauto|discriminate]. }
  split; [exact Hl|]. split.
  - unfold outcome in *. rewrite query_unfold. simpl.
    destruct (fst (_lookup_chromosome region self)) as [[[s e'] b]|err];
      [discriminate|].
    intros [= <-]. apply Hl. reflexivity.
  - unfold outcome, contig, bind, attr. simpl.
    induction (contigs (header self)) as [|c l IH]; simpl.
    + intros [= <-]. eauto.
    + case_bool_decide; [discriminate|exact IH].
Qed.

Lemma only_ValueError_raised_witness :
  ∃ msg, ValueError (Unknown_reference_name (Range.make_range "2" 0 1))
         = ValueError msg.
Proof.
  destruct (only_ValueError_raised docstring_reader
              (Range.make_range "2" 0 1) "1"%string
              (ValueError (Unknown_reference_name (Range.make_range "2" 0 1))))
    as (_ & H & _).
  apply H. reflexivity.
Defined.

(** X11. The order of the input does not matter to [query] and
    [is_valid]: when [__init__] returns on a list it returns on every
    reordering of it, with the same dictionary, so every region has the
    same answer on both readers.  (Only the positions in the header
    differ.) *)
Theorem init_permutation {fc : reference_pb2.FieldChecks}
    (chromosomes chromosomes' : list (string * Z * string))
    (self : t) :
  chromosomes ≡ₚ chromosomes' →
  __init__ fc chromosomes = Return self →
  ∃ self', __init__ fc chromosomes' = Return self'
           ∧ _chroms self' = _chroms self
           ∧ ∀ region,
               outcome (query region) self' = outcome (query region) self
               ∧ outcome (is_valid region) self'
                 = outcome (is_valid region) self.
Proof.
  intros Hperm Hinit.
  pose proof Hinit as (Hok & Hnd & Hnone & Hget & _)%init_Return_inv.
  pose proof (init_Return_accepted _ _ Hinit) as Hacc.
  assert (Hok' : Forall (λ e : string * Z * string,
                   0 <= e.1.2 ∧ e.2 ≠ EmptyString) chromosomes')
    by (rewrite <- Hperm; exact Hok).
  assert (Hnd' : NoDup (names chromosomes'))
    by (rewrite <- Hperm; exact Hnd).
  assert (Hacc' : ∀ (k : nat) n s b,
            chromosomes' !! k = Some (n, s, b) →
            reference_pb2.accepts fc n (s + py_len b) (Z.of_nat k) = true).
  { intros k n s b Hk.
    assert (Hin : (n, s, b) ∈ chromosomes).
    { rewrite Hperm. eapply list_elem_of_lookup_2. exact Hk. }
    apply list_elem_of_lookup_1 in Hin as [j Hj].
    pose proof (Hacc j n s b Hj) as Hfields.
    assert (Hlt : (k < length chromosomes)%nat).
    { rewrite (Permutation_length Hperm). eapply lookup_lt_Some. exact Hk. }
    apply lookup_lt_is_Some_2 in Hlt as [[[n1 s1] b1] Hk1].
    pose proof (Hacc k n1 s1 b1 Hk1) as Hpos.
    unfold reference_pb2.accepts in *.
    apply andb_prop in Hfields as [Hfields _].
    apply andb_prop in Hpos as [_ Hpos].
    rewrite Hfields, Hpos. reflexivity. }
  destruct (init_Return_intro (fc := fc) chromosomes' Hok' Hnd' Hacc')
    as [self' Hinit'].
  exists self'.
  assert (Heq : _chroms self' = _chroms self).
  { apply map_eq. intros m.
    destruct (_chroms self' !! m) as [c|] eqn:Hc.
    - destruct (init_chroms_Some _ _ m c Hinit' Hc) as (s & b & Hin & ->).
      symmetry. apply Hget. rewrite Hperm. exact Hin.
    - symmetry. apply Hnone. intros Hin.
      apply list_elem_of_fmap in Hin as ([[m' s] b] & -> & Hin).
      rewrite Hperm in Hin.
      pose proof Hinit' as (_ & _ & _ & Hget' & _)%init_Return_inv.
      simpl in Hc. rewrite (Hget' _ _ _ Hin) in Hc. discriminate. }
  split; [exact Hinit'|]. split; [exact Heq|].
  intros region. unfold outcome.
  rewrite !query_unfold, !is_valid_unfold. simpl.
  rewrite (lookup_depends_on_chroms self' self region Heq).
  split; reflexivity.
Qed.

Lemma init_permutation_witness :
  ∃ self', __init__ string_int64_int32
             [("2"%string, 0, "T"%string); ("1"%string, 10, "ACGT"%string)]
           = Return self'
           ∧ _chroms self'
             = {[ "1"%string := docstring_chromosome;
                  "2"%string := _InMemoryChromosome.Build_t 0 1 "T" ]}.
Proof.
  destruct (init_permutation (fc := string_int64_int32)
              [("1"%string, 10, "ACGT"%string); ("2"%string, 0, "T"%string)]
              [("2"%string, 0, "T"%string); ("1"%string, 10, "ACGT"%string)]
              (Build_t {[ "1"%string := docstring_chromosome;
                          "2"%string := _InMemoryChromosome.Build_t 0 1 "T" ]}
                 (Build_RefFastaHeader
                    [ContigInfo.Build_t "1" 14 0; ContigInfo.Build_t "2" 1 1])))
    as (self' & H1 & H2 & _).
  - apply perm_swap.
  - reflexivity.
  - exists self'. split; assumption.
Defined.

(** X12. Caching more chromosomes changes no earlier answer: when
    [__init__] returns on a list with further entries appended, it
    returns on the list itself; the longer reader holds every window of
    the shorter one, its header starts with the shorter header, and
    whatever [query] or [contig] returns on the shorter reader it
    returns on the longer one. *)
Theorem init_extension {fc : reference_pb2.FieldChecks}
    (chromosomes more : list (string * Z * string))
    (self' : t) :
  __init__ fc (chromosomes ++ more) = Return self' →
  ∃ self, __init__ fc chromosomes = Return self
          ∧ _chroms self ⊆ _chroms self'
          ∧ contigs (header self) `prefix_of` contigs (header self')
          ∧ (∀ region bases,
               query region self = (Return bases, self) →
               query region self' = (Return bases, self'))
          ∧ (∀ n info,
               contig n self = (Return info, self) →
               contig n self' = (Return info, self')).
Proof.
  intros Hinit'.
  pose proof Hinit' as (Hok' & Hnd' & _ & Hget' & Hcontigs')%init_Return_inv.
  pose proof (init_Return_accepted _ _ Hinit') as Hacc'.
  apply Forall_app in Hok' as [Hok _].
  rewrite map_app in Hnd'. apply NoDup_app in Hnd' as (Hnd & _ & _).
  destruct (init_Return_intro (fc := fc) chromosomes Hok Hnd) as [self Hinit].
  { intros k n s b Hk. apply (Hacc' k n s b).
    apply lookup_app_l_Some. exact Hk. }
  exists self.
  pose proof Hinit as (_ & _ & _ & _ & Hcontigs)%init_Return_inv.
  assert (Hsub : _chroms self ⊆ _chroms self').
  { apply map_subseteq_spec. intros m c Hc.
    destruct (init_chroms_Some _ _ m c Hinit Hc) as (s & b & Hin & ->).
    apply Hget'. apply elem_of_app. left. exact Hin. }
  assert (Hpre : contigs (header self) `prefix_of` contigs (header self')).
  { rewrite Hcontigs', Hcontigs, imap_app. eexists. reflexivity. }
  split; [exact Hinit|]. split; [exact Hsub|]. split; [exact Hpre|]. split.
  - intros region bases Hq.
    rewrite query_unfold, lookup_chromosome_unfold in Hq.
    rewrite query_unfold, lookup_chromosome_unfold. simpl in *.
    destruct (Range.start region >? Range.end_ region); [discriminate|].
    destruct (_chroms self !! Range.reference_name region) as [c|] eqn:Hc;
      [|discriminate].
    rewrite (lookup_weaken _ _ _ _ Hc Hsub).
    destruct ((Range.start region <? _InMemoryChromosome.start c)
              || (Range.end_ region >? _InMemoryChromosome.end_ c));
      [discriminate|].
    injection Hq as <-. reflexivity.
  - intros n info Hc. unfold contig, bind, attr in *. simpl in *.
    destruct Hpre as [extra ->].
    destruct (contig_loop_Return self (contigs (header self)) n info)
      as (pre & post & -> & <- & Hnot).
    { rewrite Hc. reflexivity. }
    rewrite <- app_assoc. simpl. apply contig_loop_first. exact Hnot.
Qed.

Lemma init_extension_witness :
  ∃ self, __init__ string_int64_int32 docstring_chromosomes = Return self
          ∧ _chroms self
            ⊆ {[ "1"%string := docstring_chromosome;
                 "2"%string := _InMemoryChromosome.Build_t 0 1 "T" ]}.
Proof.
  destruct (init_extension (fc := string_int64_int32)
           docstring_chromosomes [("2"%string, 0, "T"%string)]
              (Build_t {[ "1"%string := docstring_chromosome;
                          "2"%string := _InMemoryChromosome.Build_t 0 1 "T" ]}
                 (Build_RefFastaHeader
                    [ContigInfo.Build_t "1" 14 0; ContigInfo.Build_t "2" 1 1])))
    as (self & H1 & H2 & _).
  - reflexivity.
  - exists self. split; assumption.
Defined.

Lemma substring_one (s : string) :
  ∀ (k : nat) (ch : ascii),
  String.get k s = Some ch →
  substring k 1 s = String ch EmptyString.
Proof.
  induction s as [|c s IH]; intros k ch Hget; [discriminate|].
  destruct k as [|k]; simpl in *.
  - injection Hget as ->. f_equal. apply substring_nothing.
  - apply IH. exact Hget.
Qed.

Lemma get_Some_lt (s : string) :
  ∀ (k : nat) (ch : ascii),
  String.get k s = Some ch → (k < String.length s)%nat.
Proof.
  induction s as [|c s IH]; intros k ch Hget; [discriminate|].
  destruct k as [|k]; simpl in *; [lia|].
  apply IH in Hget. lia.
Qed.

(** X13. The rule of the class docstring, for every entry: on a
    constructed reader the base at position [start + k] of an entry
    (name, start, bases) is [bases[k]], so the first base of [bases] sits
    at position [start]. *)
Theorem query_single_base {fc : reference_pb2.FieldChecks}
    (chromosomes : list (string * Z * string))
    (self : t) (n : string) (s : Z) (b : string) (k : nat) (ch : ascii) :
  __init__ fc chromosomes = Return self →
  (n, s, b) ∈ chromosomes →
  String.get k b = Some ch →
  query (Range.make_range n (s + Z.of_nat k) (s + Z.of_nat k + 1)) self
  = (Return (String ch EmptyString), self).
Proof.
  intros Hinit Hin Hget.
  pose proof Hinit as (_ & _ & _ & Hlookup & _)%init_Return_inv.
  pose proof (get_Some_lt _ _ _ Hget) as Hk.
  rewrite (query_inside self _ (_InMemoryChromosome.Build_t s (s + py_len b) b)).
  - simpl. f_equal. f_equal.
    rewrite py_slice_inside by (unfold py_len; lia).
    replace (Z.to_nat (s + Z.of_nat k - s)) with k by lia.
    replace (Z.to_nat (s + Z.of_nat k + 1 - s - (s + Z.of_nat k - s)))
      with 1%nat by lia.
    apply substring_one. exact Hget.
  - simpl. lia.
  - simpl. apply Hlookup. exact Hin.
  - unfold inside, py_len. simpl. lia.
Qed.

Lemma query_single_base_witness :
  query (Range.make_range "1" (10 + Z.of_nat 1) (10 + Z.of_nat 1 + 1))
    docstring_reader
  = (Return "C"%string, docstring_reader).
Proof.
  apply (query_single_base (fc := string_int64_int32)
           docstring_chromosomes docstring_reader
           "1"%string 10 "ACGT"%string 1%nat "C"%char).
  - reflexivity.
  - left.
  - reflexivity.
Defined.
